(** * dtaianomaly: the Pipeline composition layer and the workflow
      configuration handlers

    A shallow embedding of

    - [dtaianomaly/pipeline/Pipeline.py]  (class [Pipeline]),
    - [src/workflows/handle_algorithm_configuration.py],
    - [dtaianomaly/workflow/handle_output_configuration.py],

    followed by the properties the specification states about them.

    Python objects whose methods mutate internal state are embedded as
    records of bound methods acting on one shared store (the type [World]
    below): two references to one object are the same record and act on the
    same part of the store.  A method call is a computation in a state and
    exception monad; as in Python, the store mutated before an exception is
    raised stays mutated. *)

From Stdlib Require Import ZArith String List Floats.
From stdpp Require Import base option list strings gmap.

Set Warnings "-register-all".
Local Open Scope string_scope.

(** ** The Python runtime: exceptions, results, stateful calls, values *)

Module Py.

(** The built-in exceptions the embedded code can raise or pass on.
    [UserError] stands for any other exception class, by name. *)
Inductive PyExc :=
| TypeError (msg : string)
| AttributeError (msg : string)
| KeyError (key : string)
| OSError (msg : string)
| ValueError (msg : string)
| UserError (cls msg : string).

(** The specification's taxonomy (its section 7) names failures by role;
    the code raises built-in exceptions.  [InvalidArgument] is what the
    constructors raise as [TypeError]; [UnknownAlgorithm] is what the name
    lookup [getattr] raises as [AttributeError]. *)
Definition InvalidArgument (e : PyExc) : bool :=
  match e with TypeError _ => true | _ => false end.

Definition UnknownAlgorithm (e : PyExc) : bool :=
  match e with AttributeError _ => true | _ => false end.

(** Outcome of a call: a value, or a raised exception. *)
Inductive result (A : Type) :=
| Ok (a : A)
| Raise (e : PyExc).
Arguments Ok {A} a.
Arguments Raise {A} e.

Definition is_Ok {A} (r : result A) : bool :=
  match r with Ok _ => true | Raise _ => false end.

Definition result_bind {A B} (r : result A) (k : A -> result B) : result B :=
  match r with
  | Ok a => k a
  | Raise e => Raise e
  end.

(** A call that may read and mutate the store [S] and may raise. *)
Definition M (S A : Type) : Type := S -> S * result A.

Definition ret {S A} (a : A) : M S A := fun s => (s, Ok a).

Definition raise {S A} (e : PyExc) : M S A := fun s => (s, Raise e).

Definition bind {S A B} (c : M S A) (k : A -> M S B) : M S B :=
  fun s =>
    match c s with
    | (s', Ok a) => k a s'
    | (s', Raise e) => (s', Raise e)
    end.

(** Values without methods of interest here: what [json.load] produces
    and what keyword arguments carry. *)
Inductive PyVal :=
| PyNone
| PyBool (b : bool)
| PyInt (z : Z)
| PyFloat (f : float)
| PyStr (s : string)
| PyList (l : list PyVal)
| PyDict (d : gmap string PyVal).

(** Python's truth value testing, as [and] / [if] apply it. *)
Definition truthy (v : PyVal) : bool :=
  match v with
  | PyNone => false
  | PyBool b => b
  | PyInt z => negb (Z.eqb z 0)
  | PyFloat f => negb (PrimFloat.eqb f 0)
  | PyStr s => negb (String.eqb s "")
  | PyList l => match l with [] => false | _ => true end
  | PyDict d => negb (bool_decide (d = ∅))
  end.

End Py.

Import Py.

Declare Scope py_scope.
Delimit Scope py_scope with py.
Notation "'let*' x ':=' c 'in' k" := (bind c (fun x => k))
  (at level 10, x pattern, c at level 100, k at level 200) : py_scope.
Notation "'let?' x ':=' c 'in' k" := (result_bind c (fun x => k))
  (at level 10, x pattern, c at level 100, k at level 200) : py_scope.
Local Open Scope py_scope.

(** ** dtaianomaly: the component interfaces and the Pipeline *)

Section Composition.

(** [World] is the store the components keep their fitted state in,
    [Data] the arrays ([np.ndarray]), [Scores] the arrays of anomaly
    scores, [Supervision] the supervision tags. *)
Context {World Data Scores Supervision : Type}.

(** The [Preprocessor] interface as [Pipeline] uses it.  Labels [y] are an
    array or [None]. *)
Record Preprocessor := {
  Preprocessor_fit_transform : Data -> option Data -> M World (Data * option Data);
  Preprocessor_transform : Data -> option Data -> M World (Data * option Data);
  Preprocessor_str : M World string
}.

(** The [BaseDetector] interface.  [fit] returns the detector itself in
    Python; [Pipeline] drops that value, so it is [unit] here. *)
Record BaseDetector := {
  BaseDetector_supervision : Supervision;
  BaseDetector_fit : Data -> option Data -> M World unit;
  BaseDetector_decision_function : Data -> M World Scores;
  BaseDetector_str : M World string
}.

(** What a constructor argument can be at run time. *)
Inductive PyObj :=
| ObjPreprocessor (p : Preprocessor)
| ObjDetector (d : BaseDetector)
| ObjList (items : list PyObj)
| ObjOther (repr : string).

Definition as_Preprocessor (o : PyObj) : option Preprocessor :=
  match o with ObjPreprocessor p => Some p | _ => None end.

Definition as_BaseDetector (o : PyObj) : option BaseDetector :=
  match o with ObjDetector d => Some d | _ => None end.

(** [isinstance(o, Preprocessor)], [isinstance(o, BaseDetector)],
    [isinstance(o, list)] *)
Definition isinstance_Preprocessor (o : PyObj) : bool :=
  match as_Preprocessor o with Some _ => true | None => false end.

Definition isinstance_BaseDetector (o : PyObj) : bool :=
  match as_BaseDetector o with Some _ => true | None => false end.

Definition isinstance_list (o : PyObj) : bool :=
  match o with ObjList _ => true | _ => false end.

(** Modelled from the spec: [is_valid_list] of [dtaianomaly.utils] is not
    among the sources.  The spec has the constructor accept "an ordered
    sequence of Preprocessor instances" where "every element must satisfy
    the Preprocessor capability", and the guard's message reads "list of
    Preprocessors": the value is a list and every item is an instance of
    the target type. *)
Definition is_valid_list (value : PyObj) (target_type : PyObj -> bool) : bool :=
  match value with
  | ObjList items => forallb target_type items
  | _ => false
  end.

(** *** ChainedPreprocessor *)

(** The spec gives neither the text of the chain's construction failure
    nor the separator its description puts between the steps. *)
Variable chain_error_message : string.
Variable chain_separator : string.

Record ChainedPreprocessor := {
  base_preprocessors : list Preprocessor
}.

Fixpoint all_Preprocessors (items : list PyObj) : option (list Preprocessor) :=
  match items with
  | [] => Some []
  | o :: rest =>
      match as_Preprocessor o, all_Preprocessors rest with
      | Some p, Some ps => Some (p :: ps)
      | _, _ => None
      end
  end.

(** Modelled from the spec: [ChainedPreprocessor.__init__] of
    [dtaianomaly.preprocessing] is not among the sources.  Section 4.2:
    "sequence must be non-empty; every element must satisfy Preprocessor;
    else InvalidArgument". *)
Definition ChainedPreprocessor_init (items : list PyObj) : result ChainedPreprocessor :=
  match items with
  | [] => Raise (TypeError chain_error_message)
  | _ :: _ =>
      match all_Preprocessors items with
      | Some ps => Ok {| base_preprocessors := ps |}
      | None => Raise (TypeError chain_error_message)
      end
  end.

(** Modelled from the spec: [ChainedPreprocessor.fit_transform] is not
    among the sources.  Section 4.2: "for step i, call its fit_transform
    with the output of step i-1 (or the original input for the first
    step); return the final (data, labels)": a loop over the steps that
    rebinds [X, y] to what each step returns. *)
Fixpoint chain_fit_transform (steps : list Preprocessor) (X : Data) (y : option Data)
  : M World (Data * option Data) :=
  match steps with
  | [] => ret (X, y)
  | p :: rest =>
      let* (X', y') := Preprocessor_fit_transform p X y in
      chain_fit_transform rest X' y'
  end.

(** Modelled from the spec: [ChainedPreprocessor.transform], "identical
    fold but using each step's transform". *)
Fixpoint chain_transform (steps : list Preprocessor) (X : Data) (y : option Data)
  : M World (Data * option Data) :=
  match steps with
  | [] => ret (X, y)
  | p :: rest =>
      let* (X', y') := Preprocessor_transform p X y in
      chain_transform rest X' y'
  end.

(** The steps' descriptions, asked for in order. *)
Fixpoint descriptions (steps : list Preprocessor) : M World (list string) :=
  match steps with
  | [] => ret []
  | p :: rest =>
      let* s := Preprocessor_str p in
      let* r := descriptions rest in
      ret (s :: r)
  end.

(** Modelled from the spec: the chain's description is not among the
    sources; "a Chained Preprocessor should render all of its steps": the
    steps' descriptions in order, [chain_separator] between two of
    them. *)
Definition chain_str (steps : list Preprocessor) : M World string :=
  let* names := descriptions steps in
  ret (String.concat chain_separator names).

Definition ChainedPreprocessor_fit_transform (self : ChainedPreprocessor) :=
  chain_fit_transform (base_preprocessors self).

Definition ChainedPreprocessor_transform (self : ChainedPreprocessor) :=
  chain_transform (base_preprocessors self).

Definition ChainedPreprocessor_str (self : ChainedPreprocessor) :=
  chain_str (base_preprocessors self).

(** [ChainedPreprocessor] is a subclass of [Preprocessor]. *)
Definition ChainedPreprocessor_as_Preprocessor (self : ChainedPreprocessor) : Preprocessor :=
  {| Preprocessor_fit_transform := ChainedPreprocessor_fit_transform self;
     Preprocessor_transform := ChainedPreprocessor_transform self;
     Preprocessor_str := ChainedPreprocessor_str self |}.

(** The manual fold the spec compares the chain with: starting from the
    original input, every step is bound to the outcome of the steps
    before it. *)
Definition fold_step (acc : M World (Data * option Data)) (p : Preprocessor)
  : M World (Data * option Data) :=
  let* (X, y) := acc in Preprocessor_fit_transform p X y.

Definition fold_fit_transform (steps : list Preprocessor) (X : Data) (y : option Data)
  : M World (Data * option Data) :=
  fold_left fold_step steps (ret (X, y)).

(** *** Pipeline *)

(** [class Pipeline(BaseDetector)]: an instance is its identity
    ([address], what [id] and [is] go by) and its attributes; the
    attribute [supervision] is the one [BaseDetector.__init__] sets,
    [preprocessor] and [detector] are the two declared attributes. *)
Record Pipeline := {
  address : nat;
  supervision : Supervision;
  preprocessor : Preprocessor;
  detector : BaseDetector
}.

(** Modelled from the spec: [BaseDetector.__init__] is not among the
    sources; "the Pipeline's supervision mode is taken verbatim from the
    Detector", so it stores the tag it is given. *)
Definition BaseDetector_init (supervision : Supervision) : result Supervision :=
  Ok supervision.

Definition preprocessor_type_error : PyExc :=
  TypeError "preprocessor expects a Preprocessor object or list of Preprocessors".

Definition detector_type_error : PyExc :=
  TypeError "detector expects a BaseDetector object".

(** [Pipeline(preprocessor, detector)]: [__init__] run on the new
    instance [self].  The two [None] branches cannot be reached past the
    guards ([Pipeline_init_guards] below); they repeat the guard's
    exception. *)
Definition Pipeline_init (self : nat) (preprocessor detector : PyObj) : result Pipeline :=
  if negb (isinstance_Preprocessor preprocessor
           || is_valid_list preprocessor isinstance_Preprocessor)
  then Raise preprocessor_type_error
  else if negb (isinstance_BaseDetector detector)
  then Raise detector_type_error
  else
    match as_BaseDetector detector with
    | None => Raise detector_type_error
    | Some d =>
        let? sup := BaseDetector_init (BaseDetector_supervision d) in
        let? pre :=
          match preprocessor with
          | ObjList items =>
              let? chain := ChainedPreprocessor_init items in
              Ok (ChainedPreprocessor_as_Preprocessor chain)
          | _ =>
              match as_Preprocessor preprocessor with
              | Some p => Ok p
              | None => Raise preprocessor_type_error
              end
          end in
        Ok {| address := self; supervision := sup; preprocessor := pre; detector := d |}
    end.

(** [Pipeline.fit] *)
Definition Pipeline_fit (self : Pipeline) (X : Data) (y : option Data) : M World Pipeline :=
  let* (X', y') := Preprocessor_fit_transform (preprocessor self) X y in
  let* _ := BaseDetector_fit (detector self) X' y' in
  ret self.

(** [Pipeline.decision_function] *)
Definition Pipeline_decision_function (self : Pipeline) (X : Data) : M World Scores :=
  let* (X', _) := Preprocessor_transform (preprocessor self) X None in
  BaseDetector_decision_function (detector self) X'.

(** [Pipeline.__str__]: the f-string formats the preprocessor, then the
    detector. *)
Definition Pipeline_str (self : Pipeline) : M World string :=
  let* p := Preprocessor_str (preprocessor self) in
  let* d := BaseDetector_str (detector self) in
  ret (p ++ "->" ++ d).

(** A [Pipeline] is a [BaseDetector]: it can be the detector of another
    [Pipeline]. *)
Definition Pipeline_as_BaseDetector (self : Pipeline) : BaseDetector :=
  {| BaseDetector_supervision := supervision self;
     BaseDetector_fit := fun X y => let* _ := Pipeline_fit self X y in ret tt;
     BaseDetector_decision_function := Pipeline_decision_function self;
     BaseDetector_str := Pipeline_str self |}.

(** The calls a client makes on a pipeline it holds, and the instance it
    holds after each: [fit] hands the instance back, the other two leave
    the client with the one it called. *)
Inductive Call :=
| CallFit (X : Data) (y : option Data)
| CallScore (X : Data)
| CallStr.

Definition call (self : Pipeline) (c : Call) : M World Pipeline :=
  match c with
  | CallFit X y => Pipeline_fit self X y
  | CallScore X => let* _ := Pipeline_decision_function self X in ret self
  | CallStr => let* _ := Pipeline_str self in ret self
  end.

Fixpoint calls (self : Pipeline) (cs : list Call) : M World Pipeline :=
  match cs with
  | [] => ret self
  | c :: rest => let* self' := call self c in calls self' rest
  end.

End Composition.

Arguments Preprocessor : clear implicits.
Arguments BaseDetector : clear implicits.
Arguments PyObj : clear implicits.
Arguments ChainedPreprocessor : clear implicits.
Arguments Pipeline : clear implicits.
Arguments Call : clear implicits.

(** ** The host the workflow handlers run on *)

(** [open], [json.load], [os.makedirs], [os.path.exists], [os.mkdir] and the
    text the f-strings give values other than [str] belong to the
    interpreter and the operating system; the handlers are embedded over
    this interface, [FS] being the state of the file system. *)
Record Host (FS : Type) := {
  (** [open(path, 'r')] and reading the file *)
  host_open : string -> FS -> result string;
  (** [json.load] on the text read *)
  host_json_load : string -> result PyVal;
  (** [os.makedirs(path, exist_ok=True)] *)
  host_makedirs : string -> M FS unit;
  (** [os.path.exists(path)] *)
  host_exists : string -> FS -> bool;
  (** [os.mkdir(path)] *)
  host_mkdir : string -> M FS unit;
  (** [format(v, '')] for values that are not [str] *)
  host_format : PyVal -> string
}.
Arguments host_open {FS}.
Arguments host_json_load {FS}.
Arguments host_makedirs {FS}.
Arguments host_exists {FS}.
Arguments host_mkdir {FS}.
Arguments host_format {FS}.

(** What an f-string puts in place of [{v}]. *)
Definition format_value {FS} (host : Host FS) (v : PyVal) : string :=
  match v with
  | PyStr s => s
  | _ => host_format host v
  end.

(** [json.load(open(path, 'r'))] *)
Definition load_json_file {FS} (host : Host FS) (path : string) (fs : FS) : result PyVal :=
  let? text := host_open host path fs in
  host_json_load host text.

(** [value[key]] for a [str] key: only a [dict] can answer. *)
Definition subscript (value : PyVal) (key : string) : result PyVal :=
  match value with
  | PyDict d =>
      match d !! key with
      | Some v => Ok v
      | None => Raise (KeyError key)
      end
  | PyStr _ => Raise (TypeError "string indices must be integers")
  | PyList _ => Raise (TypeError "list indices must be integers or slices, not str")
  | _ => Raise (TypeError "object is not subscriptable")
  end.

(** ** src/workflows/handle_algorithm_configuration.py *)

Module AlgorithmConfiguration.
Section Loader.
Context {FS TimeSeriesAnomalyDetector : Type}.
Variable host : Host FS.

(** A detector class of [src.anomaly_detection], through the one class
    method the loader calls. *)
Record DetectorClass := {
  load : PyVal -> result TimeSeriesAnomalyDetector
}.

(** The names the module [src.anomaly_detection] binds to detector
    classes (the module itself is not among the sources). *)
Variable anomaly_detection : gmap string DetectorClass.

(** [getattr(importlib.import_module('src.anomaly_detection'), name)] *)
Definition getattr_anomaly_detection (name : PyVal) : result DetectorClass :=
  match name with
  | PyStr n =>
      match anomaly_detection !! n with
      | Some cls => Ok cls
      | None =>
          Raise (AttributeError
                   ("module 'src.anomaly_detection' has no attribute '" ++ n ++ "'"))
      end
  | _ => Raise (TypeError "attribute name must be string")
  end.

(** The first block: a [str] argument is the path of a JSON file. *)
Definition read_algorithm_configuration (algorithm_configuration : PyVal) (fs : FS)
  : result PyVal :=
  match algorithm_configuration with
  | PyStr path => load_json_file host path fs
  | _ => Ok algorithm_configuration
  end.

Definition handle_algorithm_configuration (algorithm_configuration : PyVal) (fs : FS)
  : result TimeSeriesAnomalyDetector :=
  let? algorithm_configuration :=
    read_algorithm_configuration algorithm_configuration fs in
  let? name := subscript algorithm_configuration "anomaly_detector" in
  let? anomaly_detector_class_object := getattr_anomaly_detection name in
  load anomaly_detector_class_object algorithm_configuration.

End Loader.
Arguments DetectorClass : clear implicits.
End AlgorithmConfiguration.

(** ** dtaianomaly/workflow/handle_output_configuration.py *)

Module OutputConfig.

(** An instance of [OutputConfiguration]: the attributes [__init__] set on
    it (its [__dict__]). *)
Record OutputConfiguration := {
  __dict__ : gmap string PyVal
}.

(** The class attributes that carry a default.  [directory_path] and
    [algorithm_name] are annotated only: the class holds no value for
    them. *)
Definition class_attributes : gmap string PyVal :=
  list_to_map
    [ ("verbose", PyBool false);
      ("trace_time", PyBool false);
      ("trace_memory", PyBool false);
      ("print_results", PyBool false);
      ("save_results", PyBool false);
      ("constantly_save_results", PyBool false);
      ("results_file", PyStr "results.csv");
      ("save_anomaly_scores_plot", PyBool false);
      ("anomaly_scores_plots_directory", PyStr "anomaly_score_plots");
      ("anomaly_scores_plots_file_format", PyStr "svg");
      ("anomaly_scores_plots_show_anomaly_scores", PyStr "overlay");
      ("anomaly_scores_plots_show_ground_truth", PyNone);
      ("save_anomaly_scores", PyBool false);
      ("anomaly_scores_directory", PyStr "anomaly_scores");
      ("invalid_train_type_raise_error", PyBool true) ].

(** The read-only properties of the class: [setattr] on one of them
    raises. *)
Definition properties : list string :=
  [ "directory"; "results_path"; "anomaly_score_plots_directory_path";
    "anomaly_scores_directory_path" ].

(** [self.name] for a plain attribute: the instance, then the class. *)
Definition getattr (self : OutputConfiguration) (name : string) : result PyVal :=
  match __dict__ self !! name with
  | Some v => Ok v
  | None =>
      match class_attributes !! name with
      | Some v => Ok v
      | None =>
          Raise (AttributeError
                   ("'OutputConfiguration' object has no attribute '" ++ name ++ "'"))
      end
  end.

(** [OutputConfiguration.__init__], called with the keyword arguments
    [kwargs].  The signature is [(self, **kwargs)]: a keyword named
    [self] collides with the first parameter and the call raises before
    the body runs; otherwise the body does one [setattr] per key. *)
Definition OutputConfiguration_init (kwargs : gmap string PyVal) : result OutputConfiguration :=
  match kwargs !! "self" with
  | Some _ => Raise (TypeError "__init__() got multiple values for argument 'self'")
  | None =>
      if existsb (fun p => bool_decide (is_Some (kwargs !! p))) properties
      then Raise (AttributeError "can't set attribute")
      else Ok {| __dict__ := kwargs |}
  end.

(** The call that unpacks the mapping [plain] into keyword arguments and
    adds [algorithm_name=algorithm_name]. *)
Definition construct (plain : PyVal) (algorithm_name : string) : result OutputConfiguration :=
  match plain with
  | PyDict d =>
      match d !! "algorithm_name" with
      | Some _ =>
          Raise (TypeError "got multiple values for keyword argument 'algorithm_name'")
      | None => OutputConfiguration_init (<["algorithm_name" := PyStr algorithm_name]> d)
      end
  | _ => Raise (TypeError "argument after ** must be a mapping")
  end.

Section Handler.
Context {FS : Type}.
Variable host : Host FS.

(** The properties [directory], [results_path],
    [anomaly_score_plots_directory_path], [anomaly_scores_directory_path] *)
Definition directory (self : OutputConfiguration) : result string :=
  let? directory_path := getattr self "directory_path" in
  let? algorithm_name := getattr self "algorithm_name" in
  Ok (format_value host directory_path ++ "/" ++ format_value host algorithm_name).

Definition results_path (self : OutputConfiguration) : result string :=
  let? d := directory self in
  let? results_file := getattr self "results_file" in
  Ok (d ++ "/" ++ format_value host results_file).

Definition anomaly_score_plots_directory_path (self : OutputConfiguration) : result string :=
  let? d := directory self in
  let? sub := getattr self "anomaly_scores_plots_directory" in
  Ok (d ++ "/" ++ format_value host sub).

Definition anomaly_scores_directory_path (self : OutputConfiguration) : result string :=
  let? d := directory self in
  let? sub := getattr self "anomaly_scores_directory" in
  Ok (d ++ "/" ++ format_value host sub).

Definition lift {A} (r : result A) : M FS A := fun fs => (fs, r).

Definition exists_ (path : string) : M FS bool :=
  fun fs => (fs, Ok (host_exists host path fs)).

(** [if self.<flag> and not os.path.exists(<path>): os.mkdir(<path>)] *)
Definition mkdir_if_requested (self : OutputConfiguration) (flag : string)
    (path : OutputConfiguration -> result string) : M FS unit :=
  let* requested := lift (getattr self flag) in
  if truthy requested then
    let* p := lift (path self) in
    let* present := exists_ p in
    if negb present then
      let* p' := lift (path self) in
      host_mkdir host p'
    else ret tt
  else ret tt.

(** The argument: an [OutputConfiguration] instance, or a plain value (a
    mapping, or the path of a JSON file). *)
Inductive Argument :=
| Instance (output_configuration : OutputConfiguration)
| Plain (plain_output_configuration : PyVal).

Definition handle_output_configuration (plain_output_configuration : Argument)
    (algorithm_name : string) : M FS OutputConfiguration :=
  let* output_configuration :=
    match plain_output_configuration with
    | Instance output_configuration => ret output_configuration
    | Plain plain =>
        let* plain :=
          match plain with
          | PyStr path => fun fs => (fs, load_json_file host path fs)
          | _ => ret plain
          end in
        lift (construct plain algorithm_name)
    end in
  let* d := lift (directory output_configuration) in
  let* _ := host_makedirs host d in
  let* _ := mkdir_if_requested output_configuration
              "save_anomaly_scores_plot" anomaly_score_plots_directory_path in
  let* _ := mkdir_if_requested output_configuration
              "save_anomaly_scores" anomaly_scores_directory_path in
  ret output_configuration.

End Handler.
End OutputConfig.

(** ** Concrete components *)

(** Small components in the style of the project's test doubles: the
    store records which components were fitted, in call order, and the
    labels the echoing detector kept. *)
Module Stubs.

Inductive Supervision := UNSUPERVISED | SEMI_SUPERVISED | SUPERVISED.

Record World := {
  fitted : list string;
  kept_labels : option (list Z)
}.

Definition fresh : World := {| fitted := []; kept_labels := None |}.

Definition mark_fitted (name : string) : M World unit :=
  fun w => ({| fitted := fitted w ++ [name]; kept_labels := kept_labels w |}, Ok tt).

Definition keep_labels (y : option (list Z)) : M World unit :=
  fun w => ({| fitted := fitted w; kept_labels := y |}, Ok tt).

Definition Stateless (name : string) (f : list Z -> list Z) : Preprocessor World (list Z) :=
  {| Preprocessor_fit_transform := fun X y =>
       let* _ := mark_fitted name in ret (f X, y);
     Preprocessor_transform := fun X y => ret (f X, y);
     Preprocessor_str := ret name |}.

(** drops the last element of its input *)
Definition DropLast := Stateless "DropLast" (@removelast Z).

Definition Identity := Stateless "Identity" (fun X => X).

Definition AddOne := Stateless "AddOne" (map (fun x => x + 1)%Z).

Definition Double := Stateless "Double" (map (fun x => 2 * x)%Z).

(** a preprocessor whose [fit_transform] and [transform] raise *)
Definition Broken : Preprocessor World (list Z) :=
  {| Preprocessor_fit_transform := fun _ _ => raise (ValueError "Broken cannot fit");
     Preprocessor_transform := fun _ _ => raise (UserError "NotFittedError" "Broken is not fitted");
     Preprocessor_str := ret "Broken" |}.

(** scores 1.0 for every element it is given *)
Definition Ones : BaseDetector World (list Z) (list float) Supervision :=
  {| BaseDetector_supervision := UNSUPERVISED;
     BaseDetector_fit := fun _ _ => mark_fitted "D";
     BaseDetector_decision_function := fun X => ret (map (fun _ => 1%float) X);
     BaseDetector_str := ret "D" |}.

(** a detector whose [fit] raises after touching its own state, and
    whose [decision_function] raises *)
Definition Failing : BaseDetector World (list Z) (list float) Supervision :=
  {| BaseDetector_supervision := SUPERVISED;
     BaseDetector_fit := fun _ y =>
       let* _ := keep_labels y in raise (UserError "RuntimeError" "cannot fit");
     BaseDetector_decision_function := fun _ =>
       raise (UserError "RuntimeError" "cannot score");
     BaseDetector_str := ret "Failing" |}.

Definition zeros : list Z := [0; 0; 0; 0]%Z.

Definition StubObj : Type := PyObj World (list Z) (list float) Supervision.

Definition StubPipeline : Type := Pipeline World (list Z) (list float) Supervision.

Definition two_steps : list StubObj := [ObjPreprocessor AddOne; ObjPreprocessor Double].

Definition drop_then_ones : StubPipeline :=
  {| address := 1; supervision := UNSUPERVISED; preprocessor := DropLast;
     detector := Ones |}.

Definition drop_then_failing : StubPipeline :=
  {| address := 2; supervision := SUPERVISED; preprocessor := DropLast;
     detector := Failing |}.

(** The host: the file system is the set of directories that exist and
    holds one JSON file. *)
Definition iforest_configuration : gmap string PyVal :=
  <["anomaly_detector" := PyStr "IForest"]> (<["n_estimators" := PyInt 100]> ∅).

Definition host : Host (gset string) :=
  {| host_open := fun path _ =>
       if String.eqb path "iforest.json" then Ok "{...}"
       else Raise (OSError "No such file or directory");
     host_json_load := fun text =>
       if String.eqb text "{...}" then Ok (PyDict iforest_configuration)
       else Raise (ValueError "Expecting value");
     host_makedirs := fun path fs => ({[ path ]} ∪ fs, Ok tt);
     host_exists := fun path fs => bool_decide (path ∈ fs);
     host_mkdir := fun path fs =>
       if bool_decide (path ∈ fs) then (fs, Raise (OSError "File exists"))
       else ({[ path ]} ∪ fs, Ok tt);
     host_format := fun _ => "?" |}.

(** One registered detector class; its instances are a class name and
    the number of estimators. *)
Definition IForest : AlgorithmConfiguration.DetectorClass (string * Z) :=
  {| AlgorithmConfiguration.load := fun parameters =>
       match subscript parameters "n_estimators" with
       | Ok (PyInt n) => Ok ("IForest", n)
       | _ => Raise (ValueError "n_estimators")
       end |}.

Definition registry : gmap string (AlgorithmConfiguration.DetectorClass (string * Z)) :=
  {[ "IForest" := IForest ]}.

(** An instance made with no keyword argument, and one with the two
    directory attributes set and the score plots requested. *)
Definition bare : OutputConfig.OutputConfiguration :=
  {| OutputConfig.__dict__ := ∅ |}.

Definition configured : OutputConfig.OutputConfiguration :=
  {| OutputConfig.__dict__ :=
       <["directory_path" := PyStr "out"]>
         (<["algorithm_name" := PyStr "IForest"]>
            (<["save_anomaly_scores_plot" := PyBool true]> ∅)) |}.

End Stubs.

(** ** Pipelines inside pipelines *)

(** [class Pipeline(BaseDetector)]: a pipeline passes the constructor's
    [isinstance(detector, BaseDetector)] and can be wrapped again. *)
Section Nesting.
Context {World Data Scores Supervision : Type}.
Variables chain_error_message chain_separator : string.

(** [Pipeline(p1, Pipeline(p2, ... Pipeline(pn, d)))], innermost first
    built; a stage is the address of the pipeline made for it and its
    preprocessor. *)
Fixpoint nest (stages : list (nat * Preprocessor World Data))
    (d : BaseDetector World Data Scores Supervision)
  : result (BaseDetector World Data Scores Supervision) :=
  match stages with
  | [] => Ok d
  | (a, p) :: rest =>
      let? inner := nest rest d in
      let? outer := Pipeline_init chain_error_message chain_separator a
                      (ObjPreprocessor p) (ObjDetector inner) in
      Ok (Pipeline_as_BaseDetector outer)
  end.

(** The stages' [fit_transform] one after the other, each on what the one
    before returned, then the detector's [fit]. *)
Fixpoint fit_through (stages : list (Preprocessor World Data))
    (d : BaseDetector World Data Scores Supervision) (X : Data) (y : option Data)
  : M World unit :=
  match stages with
  | [] => BaseDetector_fit d X y
  | p :: rest =>
      let* (X', y') := Preprocessor_fit_transform p X y in
      fit_through rest d X' y'
  end.

(** The stages' [transform] one after the other, each called with
    [y=None] on the data the one before returned, then the detector's
    [decision_function]. *)
Fixpoint score_through (stages : list (Preprocessor World Data))
    (d : BaseDetector World Data Scores Supervision) (X : Data)
  : M World Scores :=
  match stages with
  | [] => BaseDetector_decision_function d X
  | p :: rest =>
      let* (X', _) := Preprocessor_transform p X None in
      score_through rest d X'
  end.

(** A component whose [__str__] returns [name] and leaves the store
    alone. *)
Definition described (name : string) (str : M World string) : Prop :=
  forall w, str w = (w, Ok name).

(** A preprocessor that is [p] except that the labels [transform] returns
    go through [f]. *)
Definition relabel (f : option Data -> option Data) (p : Preprocessor World Data)
  : Preprocessor World Data :=
  {| Preprocessor_fit_transform := Preprocessor_fit_transform p;
     Preprocessor_transform := fun X y =>
       let* (X', y') := Preprocessor_transform p X y in ret (X', f y');
     Preprocessor_str := Preprocessor_str p |}.

End Nesting.

(** ** The remaining methods of OutputConfiguration *)

Module OutputPaths.
Import OutputConfig.
Section Paths.
Context {FS : Type}.
Variable host : Host FS.

(** [str.lower], the interpreter's. *)
Variable lower : string -> string.

(** [OutputConfiguration.dataset_index_to_str], a static method; the
    index is a pair of [str]. *)
Definition dataset_index_to_str (dataset_index : string * string) : string :=
  lower (fst dataset_index) ++ "_" ++ lower (snd dataset_index).

(** [self.dataset_index_to_str(dataset_index)]: an instance attribute of
    that name, set through a keyword argument, hides the static method,
    and no such value can be called. *)
Definition call_dataset_index_to_str (self : OutputConfiguration)
    (dataset_index : string * string) : result string :=
  match __dict__ self !! "dataset_index_to_str" with
  | Some _ => Raise (TypeError "object is not callable")
  | None => Ok (dataset_index_to_str dataset_index)
  end.

(** [OutputConfiguration.intermediate_results_path] *)
Definition intermediate_results_path (self : OutputConfiguration)
    (dataset_index : string * string) : result string :=
  let? d := directory host self in
  let? index := call_dataset_index_to_str self dataset_index in
  Ok (d ++ "/tmp_intermediate_results_" ++ index ++ ".csv").

(** [OutputConfiguration.anomaly_score_plot_path] *)
Definition anomaly_score_plot_path (self : OutputConfiguration)
    (dataset_index : string * string) : result string :=
  let? d := anomaly_score_plots_directory_path host self in
  let? index := call_dataset_index_to_str self dataset_index in
  let? file_format := getattr self "anomaly_scores_plots_file_format" in
  Ok (d ++ "/" ++ index ++ "." ++ format_value host file_format).

(** [OutputConfiguration.anomaly_scores_path] *)
Definition anomaly_scores_path (self : OutputConfiguration)
    (dataset_index : string * string) : result string :=
  let? d := anomaly_scores_directory_path host self in
  let? index := call_dataset_index_to_str self dataset_index in
  Ok (d ++ "/" ++ index).

(** The names every instance has a slot for: [setattr] on them does not
    store an attribute, so keyword arguments are taken not to use them. *)
Definition slots : list string := [ "__class__"; "__dict__"; "__weakref__" ].

Definition ordinary (kwargs : gmap string PyVal) : Prop :=
  forall k, In k slots -> kwargs !! k = None.

(** A path below the directory [d]. *)
Definition under (d path : string) : Prop :=
  exists rest, path = d ++ "/" ++ rest.

(** A host that creates what it is asked to: after a successful
    [makedirs] or [mkdir] the path exists, and [mkdir] removes
    nothing. *)
Definition creates_directories : Prop :=
  (forall path fs fs', host_makedirs host path fs = (fs', Ok tt) ->
                       host_exists host path fs' = true)
  /\ (forall path fs fs', host_mkdir host path fs = (fs', Ok tt) ->
                          host_exists host path fs' = true)
  /\ (forall path other fs fs' r, host_mkdir host path fs = (fs', r) ->
                                  host_exists host other fs = true ->
                                  host_exists host other fs' = true).

(** The subdirectory behind [flag] is wanted: the flag is set and the
    directory is not there yet. *)
Definition wanted (self : OutputConfiguration) (flag : string)
    (path : OutputConfiguration -> result string) (fs : FS) : bool :=
  match getattr self flag, path self with
  | Ok v, Ok p => truthy v && negb (host_exists host p fs)
  | _, _ => false
  end.

End Paths.
End OutputPaths.

(** ** More concrete components *)

Module MoreStubs.
Import Stubs.

(** [str.lower] on the letters A to Z. *)
Definition lower_char (c : Ascii.ascii) : Ascii.ascii :=
  let n := Ascii.nat_of_ascii c in
  if (65 <=? n)%nat && (n <=? 90)%nat then Ascii.ascii_of_nat (n + 32) else c.

Fixpoint lower (s : string) : string :=
  match s with
  | EmptyString => EmptyString
  | String c rest => String (lower_char c) (lower rest)
  end.

Definition two_stages : list (nat * Preprocessor World (list Z)) :=
  [(3, AddOne); (4, Double)].

(** an instance that asks for nothing beyond its directory *)
Definition plain_instance : OutputConfig.OutputConfiguration :=
  {| OutputConfig.__dict__ :=
       <["directory_path" := PyStr "out"]> (<["algorithm_name" := PyStr "LOF"]> ∅) |}.


End MoreStubs.

(** * Properties *)

(** ** Calls in sequence *)

Section MonadFacts.
Context {S A B C : Type}.

Lemma bind_ret_l (a : A) (k : A -> M S B) (s : S) :
  bind (ret a) k s = k a s.
Proof. reflexivity. Qed.

Lemma bind_ret_r (c : M S A) (s : S) :
  bind c ret s = c s.
Proof. unfold bind, ret. destruct (c s) as [s' [a | e]]; reflexivity. Qed.

Lemma bind_assoc (c : M S A) (f : A -> M S B) (g : B -> M S C) (s : S) :
  bind (bind c f) g s = bind c (fun a => bind (f a) g) s.
Proof. unfold bind. destruct (c s) as [s' [a | e]]; reflexivity. Qed.

Lemma bind_ext (c : M S A) (f g : A -> M S B) (s : S) :
  (forall a s', f a s' = g a s') -> bind c f s = bind c g s.
Proof. intros H. unfold bind. destruct (c s) as [s' [a | e]]; auto. Qed.

Lemma bind_congr (c c' : M S A) (f g : A -> M S B) (s : S) :
  c s = c' s -> (forall a s', f a s' = g a s') -> bind c f s = bind c' g s.
Proof. intros Hc H. unfold bind. rewrite Hc. destruct (c' s) as [s' [a | e]]; auto. Qed.

Lemma bind_Ok (c : M S A) (k : A -> M S B) (s s' : S) (a : A) :
  c s = (s', Ok a) -> bind c k s = k a s'.
Proof. intros H. unfold bind. rewrite H. reflexivity. Qed.

Lemma bind_Raise (c : M S A) (k : A -> M S B) (s s' : S) (e : PyExc) :
  c s = (s', Raise e) -> bind c k s = (s', Raise e).
Proof. intros H. unfold bind. rewrite H. reflexivity. Qed.

(** What a sequence of two calls can have done when it is over. *)
Lemma bind_inv (c : M S A) (k : A -> M S B) (s s2 : S) (r : result B) :
  bind c k s = (s2, r) ->
  (exists e, c s = (s2, Raise e) /\ r = Raise e) \/
  (exists s1 a, c s = (s1, Ok a) /\ k a s1 = (s2, r)).
Proof.
  unfold bind. destruct (c s) as [s1 [a | e]]; intros H.
  - right. eauto.
  - left. inversion H; subst. eauto.
Qed.

End MonadFacts.

(** ** The chained preprocessor *)

Section ChainFacts.
Context {World Data Scores Supervision : Type}.
Abbreviation Pre := (Preprocessor World Data).
Abbreviation Obj := (PyObj World Data Scores Supervision).

(** The fold from any accumulated computation is that computation
    followed by the loop over the remaining steps. *)
Lemma fold_left_chain (steps : list Pre) (acc : M World (Data * option Data)) (w : World) :
  fold_left fold_step steps acc w
  = bind acc (fun '(X, y) => chain_fit_transform steps X y) w.
Proof.
  revert acc w. induction steps as [| p rest IH]; intros acc w; simpl.
  - unfold bind, ret. destruct (acc w) as [w' [[X y] | e]]; reflexivity.
  - rewrite IH. unfold fold_step. rewrite bind_assoc.
    apply bind_ext. intros [X y] w'. reflexivity.
Qed.

Lemma chain_is_fold (steps : list Pre) X y w :
  chain_fit_transform steps X y w = fold_fit_transform steps X y w.
Proof.
  unfold fold_fit_transform. rewrite fold_left_chain. reflexivity.
Qed.

(** The loop over [before ++ after] is the loop over [before], then the
    loop over [after] on what it returned. *)
Lemma chain_fit_transform_app (before after : list Pre) X y w :
  chain_fit_transform (before ++ after)%list X y w
  = bind (chain_fit_transform before X y)
         (fun '(X', y') => chain_fit_transform after X' y') w.
Proof.
  revert X y w. induction before as [| p rest IH]; intros X y w; simpl.
  - reflexivity.
  - rewrite bind_assoc. apply bind_ext. intros [X' y'] w'. apply IH.
Qed.

Lemma all_Preprocessors_Some (items : list Obj) (ps : list Pre) :
  all_Preprocessors items = Some ps -> items = map ObjPreprocessor ps.
Proof.
  revert ps. induction items as [| o rest IH]; intros ps H; simpl in H.
  - inversion H. reflexivity.
  - destruct o; simpl in H; try discriminate.
    destruct (all_Preprocessors rest) as [ps' |]; [| discriminate].
    inversion H; subst. simpl. f_equal. apply IH. reflexivity.
Qed.

Lemma all_Preprocessors_map (ps : list Pre) :
  all_Preprocessors (map ObjPreprocessor ps : list Obj) = Some ps.
Proof. induction ps as [| p rest IH]; simpl; [| rewrite IH]; reflexivity. Qed.

Lemma ChainedPreprocessor_init_Ok msg (items : list Obj) chain :
  ChainedPreprocessor_init msg items = Ok chain ->
  items = map ObjPreprocessor (base_preprocessors chain)
  /\ base_preprocessors chain <> [].
Proof.
  unfold ChainedPreprocessor_init. destruct items as [| o rest]; [discriminate |].
  destruct (all_Preprocessors (o :: rest)) as [ps |] eqn:E; [| discriminate].
  intros H. inversion H; subst. simpl.
  apply all_Preprocessors_Some in E. split; [exact E |].
  intros ->. discriminate.
Qed.

Lemma ChainedPreprocessor_init_map msg (p : Pre) (ps : list Pre) :
  ChainedPreprocessor_init msg (map ObjPreprocessor (p :: ps) : list Obj)
  = Ok {| base_preprocessors := p :: ps |}.
Proof.
  unfold ChainedPreprocessor_init.
  rewrite all_Preprocessors_map. reflexivity.
Qed.

(** C1.  For a chained preprocessor built from a sequence of objects (the
    construction succeeds only for a non-empty sequence of
    preprocessors), [fit_transform] on any input and in any store is the
    left fold of the steps' [fit_transform] in construction order from
    the original input; a step in the middle receives what the fold of
    the steps before it returned, and its result goes through the steps
    after it. *)
Theorem chained_fit_transform_is_left_fold
    (msg sep : string) (items : list Obj) (chain : ChainedPreprocessor World Data) :
  ChainedPreprocessor_init msg items = Ok chain ->
  items = map ObjPreprocessor (base_preprocessors chain)
  /\ base_preprocessors chain <> []
  /\ (forall X y w,
        Preprocessor_fit_transform (ChainedPreprocessor_as_Preprocessor sep chain) X y w
        = fold_fit_transform (base_preprocessors chain) X y w)
  /\ (forall (before : list Pre) p after X y w,
        base_preprocessors chain = (before ++ p :: after)%list ->
        ChainedPreprocessor_fit_transform chain X y w
        = (let* (X1, y1) := fold_fit_transform before X y in
           let* (X2, y2) := Preprocessor_fit_transform p X1 y1 in
           fold_fit_transform after X2 y2) w).
Proof.
  intros Hinit. destruct (ChainedPreprocessor_init_Ok _ _ _ Hinit) as [Hitems Hne].
  repeat split; try assumption.
  - intros X y w. simpl. unfold ChainedPreprocessor_fit_transform. apply chain_is_fold.
  - intros before p after X y w Hsplit.
    unfold ChainedPreprocessor_fit_transform. rewrite Hsplit.
    rewrite chain_fit_transform_app.
    apply bind_congr; [apply chain_is_fold |].
    intros [X1 y1] w1. simpl.
    apply bind_ext. intros [X2 y2] w2. apply chain_is_fold.
Qed.

End ChainFacts.

(** ** Pipeline construction *)

Section ConstructionFacts.
Context {World Data Scores Supervision : Type}.
Variables msg sep : string.
Variable a : nat.
Abbreviation Obj' := (PyObj World Data Scores Supervision).
Abbreviation Pipe := (Pipeline World Data Scores Supervision).

(** A list of preprocessors, in the words of the spec. *)
Lemma is_valid_list_iff (value : Obj') :
  is_valid_list value isinstance_Preprocessor = true
  <-> exists items, value = ObjList items
                    /\ List.Forall (fun o => isinstance_Preprocessor o = true) items.
Proof.
  split.
  - destruct value as [p | d | items | r]; simpl; try discriminate.
    intros H. exists items. split; [reflexivity |].
    apply List.Forall_forall. apply forallb_forall. exact H.
  - intros (items & -> & H). simpl.
    apply forallb_forall. apply List.Forall_forall. exact H.
Qed.

(** Past the two guards the defensive branches of [Pipeline_init] are
    dead. *)
Lemma Pipeline_init_guards (preprocessor detector : Obj') :
  (isinstance_Preprocessor preprocessor
   || is_valid_list preprocessor isinstance_Preprocessor = true ->
   isinstance_list preprocessor = false ->
   exists p, as_Preprocessor preprocessor = Some p)
  /\ (isinstance_BaseDetector detector = true ->
      exists d, as_BaseDetector detector = Some d).
Proof.
  split.
  - destruct preprocessor; simpl; intros H1 H2; try discriminate; eauto.
  - destruct detector; simpl; intros H; try discriminate; eauto.
Qed.

(** What a successful construction was given and what it built. *)
Lemma Pipeline_init_Ok (pre det : Obj') (pipeline : Pipe) :
  Pipeline_init msg sep a pre det = Ok pipeline ->
  exists d,
    det = ObjDetector d
    /\ detector pipeline = d
    /\ supervision pipeline = BaseDetector_supervision d
    /\ ((exists p, pre = ObjPreprocessor p /\ preprocessor pipeline = p)
        \/ (exists items chain,
               pre = ObjList items
               /\ ChainedPreprocessor_init msg items = Ok chain
               /\ preprocessor pipeline = ChainedPreprocessor_as_Preprocessor sep chain)).
Proof.
  unfold Pipeline_init.
  destruct (negb (isinstance_Preprocessor pre
                  || is_valid_list pre isinstance_Preprocessor)) eqn:G1;
    [discriminate |].
  destruct det as [q | d | l | r]; simpl; try discriminate.
  intros H. exists d.
  destruct pre as [p | d' | items | r]; simpl in *; try discriminate.
  - inversion H; subst; simpl. repeat split. left. eauto.
  - destruct (ChainedPreprocessor_init msg items) as [chain |] eqn:E; simpl in H;
      [| discriminate].
    inversion H; subst; simpl. repeat split. right. eauto.
Qed.

(** A constructor that fails the first guard. *)
Lemma Pipeline_init_bad_preprocessor (pre det : Obj') :
  isinstance_Preprocessor pre = false ->
  is_valid_list pre isinstance_Preprocessor = false ->
  Pipeline_init msg sep a pre det = Raise preprocessor_type_error.
Proof. intros H1 H2. unfold Pipeline_init. rewrite H1, H2. reflexivity. Qed.

(** A constructor that fails the second guard, if not the first. *)
Lemma Pipeline_init_bad_detector (pre det : Obj') :
  isinstance_BaseDetector det = false ->
  Pipeline_init msg sep a pre det = Raise preprocessor_type_error
  \/ Pipeline_init msg sep a pre det = Raise detector_type_error.
Proof.
  intros H. unfold Pipeline_init. rewrite H.
  destruct (negb _); [left | right]; reflexivity.
Qed.

(** C2.  When the preprocessor argument is neither a preprocessor nor a
    list of preprocessors, or the detector argument is not a detector,
    the constructor raises [TypeError] (the spec's InvalidArgument) with
    the message of the guard that failed, and returns no pipeline. *)
Theorem pipeline_rejects_invalid_arguments (pre det : Obj') :
  ~ (isinstance_Preprocessor pre = true
     \/ exists items, pre = ObjList items
                      /\ List.Forall (fun o => isinstance_Preprocessor o = true) items)
  \/ isinstance_BaseDetector det = false ->
  exists e,
    Pipeline_init msg sep a pre det = Raise e
    /\ InvalidArgument e = true
    /\ (e = preprocessor_type_error \/ e = detector_type_error)
    /\ forall pipeline, Pipeline_init msg sep a pre det <> Ok pipeline.
Proof.
  assert (Hraise : forall e, Pipeline_init msg sep a pre det = Raise e ->
                             forall pipeline, Pipeline_init msg sep a pre det <> Ok pipeline)
    by (intros e -> pipeline; discriminate).
  intros [Hpre | Hdet].
  - assert (H1 : isinstance_Preprocessor pre = false)
      by (destruct (isinstance_Preprocessor pre); [exfalso; apply Hpre; left |]; reflexivity).
    assert (H2 : is_valid_list pre isinstance_Preprocessor = false).
    { destruct (is_valid_list pre isinstance_Preprocessor) eqn:E; [| reflexivity].
      exfalso. apply Hpre. right. apply is_valid_list_iff. exact E. }
    exists preprocessor_type_error.
    pose proof (Pipeline_init_bad_preprocessor pre det H1 H2) as Hr.
    repeat split; eauto.
  - destruct (Pipeline_init_bad_detector pre det Hdet) as [Hr | Hr].
    + exists preprocessor_type_error. repeat split; eauto.
    + exists detector_type_error. repeat split; eauto.
Qed.

(** The constructor on a non-empty list of preprocessors and a
    detector. *)
Lemma Pipeline_init_list (p : Preprocessor World Data) ps
    (d : BaseDetector World Data Scores Supervision) :
  Pipeline_init msg sep a (ObjList (map ObjPreprocessor (p :: ps))) (ObjDetector d)
  = Ok {| address := a;
          supervision := BaseDetector_supervision d;
          preprocessor :=
            ChainedPreprocessor_as_Preprocessor sep {| base_preprocessors := p :: ps |};
          detector := d |}.
Proof.
  unfold Pipeline_init.
  assert (Hv : is_valid_list (ObjList (map ObjPreprocessor (p :: ps)) : Obj')
                 isinstance_Preprocessor = true).
  { apply is_valid_list_iff. eexists. split; [reflexivity |].
    apply List.Forall_forall. intros o Ho. apply in_map_iff in Ho.
    destruct Ho as (q & <- & _). reflexivity. }
  rewrite Hv. cbn [isinstance_Preprocessor as_Preprocessor orb negb
                   isinstance_BaseDetector as_BaseDetector BaseDetector_init result_bind].
  rewrite ChainedPreprocessor_init_map. reflexivity.
Qed.

(** C3.  An empty list of preprocessors makes the constructor raise
    [TypeError] (the spec's InvalidArgument) itself, whatever the
    detector argument is, so nothing is left for [fit] to find; a
    non-empty list of preprocessors, with a detector, makes it return
    the pipeline whose preprocessor is the chain over that list. *)
Theorem pipeline_empty_list_rejected_nonempty_wrapped :
  (forall det : Obj',
      exists e, Pipeline_init msg sep a (ObjList []) det = Raise e
                /\ InvalidArgument e = true)
  /\ (forall (p : Preprocessor World Data) ps (d : BaseDetector World Data Scores Supervision),
        ChainedPreprocessor_init msg (map ObjPreprocessor (p :: ps) : list Obj')
        = Ok {| base_preprocessors := p :: ps |}
        /\ Pipeline_init msg sep a (ObjList (map ObjPreprocessor (p :: ps))) (ObjDetector d)
           = Ok {| address := a;
                   supervision := BaseDetector_supervision d;
                   preprocessor :=
                     ChainedPreprocessor_as_Preprocessor sep
                       {| base_preprocessors := p :: ps |};
                   detector := d |}).
Proof.
  split.
  - intros det. unfold Pipeline_init. simpl.
    destruct det as [q | d | l | r]; simpl; eexists; split; reflexivity.
  - intros p ps d. split; [apply ChainedPreprocessor_init_map | apply Pipeline_init_list].
Qed.

End ConstructionFacts.

(** ** Pipeline operations *)

Section OperationFacts.
Context {World Data Scores Supervision : Type}.
Abbreviation Obj'' := (PyObj World Data Scores Supervision).
Abbreviation Pipe' := (Pipeline World Data Scores Supervision).

(** [fit] hands back the instance it was called on, if anything. *)
Lemma Pipeline_fit_returns_self (self : Pipe') X y w w' (r : Pipe') :
  Pipeline_fit self X y w = (w', Ok r) -> r = self.
Proof.
  unfold Pipeline_fit, bind, ret.
  destruct (Preprocessor_fit_transform _ X y w) as [w1 [[X' y'] | e]]; [| discriminate].
  destruct (BaseDetector_fit _ X' y' w1) as [w2 [u | e]]; [| discriminate].
  intros H. inversion H. reflexivity.
Qed.

Lemma call_returns_self (self : Pipe') (c : Call Data) w w' (r : Pipe') :
  call self c w = (w', Ok r) -> r = self.
Proof.
  destruct c as [X y | X |]; simpl.
  - apply Pipeline_fit_returns_self.
  - unfold bind, ret. destruct (Pipeline_decision_function self X w) as [w1 [s | e]];
      intros H; inversion H; reflexivity.
  - unfold bind, ret. destruct (Pipeline_str self w) as [w1 [s | e]];
      intros H; inversion H; reflexivity.
Qed.

Lemma calls_returns_self (cs : list (Call Data)) (self : Pipe') w w' (r : Pipe') :
  calls self cs w = (w', Ok r) -> r = self.
Proof.
  revert self w. induction cs as [| c rest IH]; intros self w; simpl.
  - unfold ret. intros H. inversion H. reflexivity.
  - intros H. apply bind_inv in H.
    destruct H as [(e & _ & He) | (w1 & self' & Hc & Hrest)]; [discriminate |].
    apply call_returns_self in Hc. subst self'. eapply IH. exact Hrest.
Qed.

(** C4.  A pipeline the constructor returned reports the supervision of
    the detector it wraps, whatever the preprocessor argument was, and
    every instance a client holds after any sequence of [fit],
    [decision_function] and [__str__] calls still does: it is the same
    instance. *)
Theorem pipeline_supervision_is_detectors
    (msg sep : string) (a : nat) (pre det : Obj'') (pipeline : Pipe') :
  Pipeline_init msg sep a pre det = Ok pipeline ->
  ObjDetector (detector pipeline) = det
  /\ supervision pipeline = BaseDetector_supervision (detector pipeline)
  /\ forall cs w w' pipeline',
       calls pipeline cs w = (w', Ok pipeline') ->
       supervision pipeline' = BaseDetector_supervision (detector pipeline')
       /\ detector pipeline' = detector pipeline
       /\ address pipeline' = address pipeline.
Proof.
  intros H. apply Pipeline_init_Ok in H.
  destruct H as (d & -> & Hd & Hs & _). subst d.
  repeat split; try assumption.
  - apply calls_returns_self in H. subst. assumption.
  - apply calls_returns_self in H. subst. reflexivity.
  - apply calls_returns_self in H. subst. reflexivity.
Qed.

(** C5.  When the preprocessor's [fit_transform] on [(X, y)] returns
    [(X', y')] and the detector's [fit] on [(X', y')], run in the store
    [fit_transform] left, returns, [fit] ends in the store the detector
    left and returns the instance it was called on, the one at the same
    address; a call chained on the returned value is a call on that
    instance. *)
Theorem pipeline_fit_runs_both_and_returns_self
    (self : Pipe') X y w w1 X' y' w2 :
  Preprocessor_fit_transform (preprocessor self) X y w = (w1, Ok (X', y')) ->
  BaseDetector_fit (detector self) X' y' w1 = (w2, Ok tt) ->
  Pipeline_fit self X y w = (w2, Ok self)
  /\ (forall w' r, Pipeline_fit self X y w = (w', Ok r) -> address r = address self)
  /\ forall Z,
       (let* fitted := Pipeline_fit self X y in Pipeline_decision_function fitted Z) w
       = Pipeline_decision_function self Z w2.
Proof.
  intros Hpre Hdet.
  assert (Hfit : Pipeline_fit self X y w = (w2, Ok self)).
  { unfold Pipeline_fit. rewrite (bind_Ok _ _ _ _ _ Hpre).
    rewrite (bind_Ok _ _ _ _ _ Hdet). reflexivity. }
  split; [exact Hfit |]. split.
  - intros w' r Hr. apply Pipeline_fit_returns_self in Hr. subst r. reflexivity.
  - intros Z. rewrite (bind_Ok _ _ _ _ _ Hfit). reflexivity.
Qed.

(** [decision_function] once [transform] has returned. *)
Lemma Pipeline_decision_function_Ok (self : Pipe') X w w1 X' y' :
  Preprocessor_transform (preprocessor self) X None w = (w1, Ok (X', y')) ->
  Pipeline_decision_function self X w
  = BaseDetector_decision_function (detector self) X' w1.
Proof.
  intros H. unfold Pipeline_decision_function.
  rewrite (bind_Ok _ _ _ _ _ H). reflexivity.
Qed.

(** C7.  An exception a component raises during [fit] or
    [decision_function] is what the pipeline raises, as it is; the
    store is the one the raising component left.  When the detector's
    [fit] raises after [fit_transform] returned, whatever the detector
    leaves alone is as [fit_transform] left it: nothing is rolled
    back. *)
Theorem pipeline_passes_component_failures_on (self : Pipe') X y w :
  (forall w1 e,
      Preprocessor_fit_transform (preprocessor self) X y w = (w1, Raise e) ->
      Pipeline_fit self X y w = (w1, Raise e))
  /\ (forall w1 X' y' w2 e,
        Preprocessor_fit_transform (preprocessor self) X y w = (w1, Ok (X', y')) ->
        BaseDetector_fit (detector self) X' y' w1 = (w2, Raise e) ->
        Pipeline_fit self X y w = (w2, Raise e)
        /\ forall (V : Type) (view : World -> V),
             (forall X0 y0 w0, view (fst (BaseDetector_fit (detector self) X0 y0 w0))
                               = view w0) ->
             view (fst (Pipeline_fit self X y w)) = view w1)
  /\ (forall w1 e,
        Preprocessor_transform (preprocessor self) X None w = (w1, Raise e) ->
        Pipeline_decision_function self X w = (w1, Raise e))
  /\ (forall w1 X' y' w2 e,
        Preprocessor_transform (preprocessor self) X None w = (w1, Ok (X', y')) ->
        BaseDetector_decision_function (detector self) X' w1 = (w2, Raise e) ->
        Pipeline_decision_function self X w = (w2, Raise e)).
Proof.
  split; [| split; [| split]].
  - intros w1 e H. unfold Pipeline_fit. apply bind_Raise. exact H.
  - intros w1 X' y' w2 e Hpre Hdet.
    assert (Hfit : Pipeline_fit self X y w = (w2, Raise e)).
    { unfold Pipeline_fit. rewrite (bind_Ok _ _ _ _ _ Hpre).
      apply bind_Raise. exact Hdet. }
    split; [exact Hfit |].
    intros V view Hframe. rewrite Hfit. simpl.
    specialize (Hframe X' y' w1). rewrite Hdet in Hframe. exact Hframe.
  - intros w1 e H. unfold Pipeline_decision_function. apply bind_Raise. exact H.
  - intros w1 X' y' w2 e H1 H2. rewrite (Pipeline_decision_function_Ok _ _ _ _ _ _ H1).
    exact H2.
Qed.

Lemma append_assoc (a b c : string) : (a ++ b) ++ c = a ++ b ++ c.
Proof.
  induction a as [| ch a IH]; [reflexivity |].
  change (String ch ((a ++ b) ++ c) = String ch (a ++ b ++ c)).
  rewrite IH. reflexivity.
Qed.

(** The descriptions of steps whose [__str__] returns. *)
Lemma chain_str_two sep (p1 p2 : Preprocessor World Data) w w1 w2 s1 s2 :
  Preprocessor_str p1 w = (w1, Ok s1) ->
  Preprocessor_str p2 w1 = (w2, Ok s2) ->
  chain_str sep [p1; p2] w = (w2, Ok (s1 ++ sep ++ s2)).
Proof.
  intros H1 H2. unfold chain_str. simpl.
  unfold bind at 1. unfold bind at 1. rewrite H1.
  unfold bind at 1. unfold bind at 1. rewrite H2. reflexivity.
Qed.

(** C9.  [__str__] returns the preprocessor's description, then "->",
    then the detector's; a pipeline that is itself the detector of
    another is described by its own [__str__]; for a pipeline built from
    a list of two steps and a detector, the description is the first
    step's, the chain's separator, the second step's, "->" and the
    detector's. *)
Theorem pipeline_str_composes (self : Pipe') w :
  (forall w1 w2 a b,
      Preprocessor_str (preprocessor self) w = (w1, Ok a) ->
      BaseDetector_str (detector self) w1 = (w2, Ok b) ->
      Pipeline_str self w = (w2, Ok (a ++ "->" ++ b)))
  /\ BaseDetector_str (Pipeline_as_BaseDetector self) w = Pipeline_str self w
  /\ (forall msg sep a p1 p2 d w1 w2 w3 s1 s2 D,
        Pipeline_init msg sep a (ObjList [ObjPreprocessor p1; ObjPreprocessor p2])
          (ObjDetector d) = Ok self ->
        Preprocessor_str p1 w = (w1, Ok s1) ->
        Preprocessor_str p2 w1 = (w2, Ok s2) ->
        BaseDetector_str d w2 = (w3, Ok D) ->
        Pipeline_str self w = (w3, Ok (s1 ++ sep ++ s2 ++ "->" ++ D))).
Proof.
  assert (Hstr : forall w1 w2 a b,
      Preprocessor_str (preprocessor self) w = (w1, Ok a) ->
      BaseDetector_str (detector self) w1 = (w2, Ok b) ->
      Pipeline_str self w = (w2, Ok (a ++ "->" ++ b))).
  { intros w1 w2 a b Ha Hb. unfold Pipeline_str.
    rewrite (bind_Ok _ _ _ _ _ Ha). rewrite (bind_Ok _ _ _ _ _ Hb). reflexivity. }
  split; [exact Hstr |]. split; [reflexivity |].
  intros msg sep a p1 p2 d w1 w2 w3 s1 s2 D Hinit H1 H2 HD.
  change [ObjPreprocessor p1; ObjPreprocessor p2]
    with (map ObjPreprocessor [p1; p2] : list Obj'') in Hinit.
  rewrite Pipeline_init_list in Hinit. inversion Hinit; subst self; clear Hinit.
  rewrite (Hstr w2 w3 (s1 ++ sep ++ s2) D).
  - rewrite !append_assoc. reflexivity.
  - simpl. unfold ChainedPreprocessor_str. simpl.
    eapply chain_str_two; eassumption.
  - exact HD.
Qed.

End OperationFacts.

(** C6.  Once the preprocessor's [transform], called with [y=None], has
    returned [(X', y')], [decision_function] is the detector's
    [decision_function] on [X'] in the store [transform] left: [y'] is
    dropped and the scores are handed on as they are.  With the stub that
    drops the last element and the stub that scores 1.0 per element, the
    scores of [[0,0,0,0]] are [[1.0,1.0,1.0]], three for four inputs,
    before as well as after a [fit]. *)
Theorem pipeline_score_is_detector_on_transformed :
  (forall (World Data Scores Supervision : Type)
          (self : Pipeline World Data Scores Supervision) X w w1 X' y',
      Preprocessor_transform (preprocessor self) X None w = (w1, Ok (X', y')) ->
      Pipeline_decision_function self X w
      = BaseDetector_decision_function (detector self) X' w1)
  /\ (forall msg sep a, exists pipeline,
        Pipeline_init msg sep a (ObjPreprocessor Stubs.DropLast) (ObjDetector Stubs.Ones)
        = Ok pipeline
        /\ (forall w, Pipeline_decision_function pipeline Stubs.zeros w
                      = (w, Ok [1.0; 1.0; 1.0]%float))
        /\ (forall y w,
              snd ((let* fitted := Pipeline_fit pipeline Stubs.zeros y in
                    Pipeline_decision_function fitted Stubs.zeros) w)
              = Ok [1.0; 1.0; 1.0]%float)
        /\ length Stubs.zeros = 4).
Proof.
  split.
  - intros. apply Pipeline_decision_function_Ok with (y' := y'). assumption.
  - intros msg sep a. eexists. split; [reflexivity |]. repeat split.
Qed.

(** ** The configuration loader *)

Section LoaderFacts.
Import AlgorithmConfiguration.
Context {FS TimeSeriesAnomalyDetector : Type}.
Variable host : Host FS.
Variable anomaly_detection : gmap string (DetectorClass TimeSeriesAnomalyDetector).

(** The loader once the configuration is at hand. *)
Lemma handle_algorithm_configuration_read argument fs configuration :
  read_algorithm_configuration host argument fs = Ok configuration ->
  handle_algorithm_configuration host anomaly_detection argument fs
  = (let? name := subscript configuration "anomaly_detector" in
     let? cls := getattr_anomaly_detection anomaly_detection name in
     load cls configuration).
Proof. intros H. unfold handle_algorithm_configuration. rewrite H. reflexivity. Qed.

(** C8.  For a configuration given as a mapping, or as the path of a
    JSON file holding a mapping, whose entry "anomaly_detector" is a
    name: when the module binds no class to the name the loader raises
    [AttributeError] (the spec's UnknownAlgorithm); when it binds a
    class, the loader returns what the class's [load] returns on the
    configuration, an instance or the exception [load] raised. *)
Theorem loader_looks_the_class_up
    (argument : PyVal) (fs : FS) (configuration : gmap string PyVal) (name : string) :
  argument = PyDict configuration
  \/ (exists path, argument = PyStr path
                   /\ load_json_file host path fs = Ok (PyDict configuration)) ->
  configuration !! "anomaly_detector" = Some (PyStr name) ->
  (anomaly_detection !! name = None ->
   exists e, handle_algorithm_configuration host anomaly_detection argument fs = Raise e
             /\ UnknownAlgorithm e = true)
  /\ (forall cls, anomaly_detection !! name = Some cls ->
                  handle_algorithm_configuration host anomaly_detection argument fs
                  = load cls (PyDict configuration)).
Proof.
  intros Harg Hname.
  assert (Hread : read_algorithm_configuration host argument fs = Ok (PyDict configuration)).
  { destruct Harg as [-> | (path & -> & Hfile)]; [reflexivity | exact Hfile]. }
  rewrite (handle_algorithm_configuration_read _ _ _ Hread).
  unfold subscript. rewrite Hname. simpl.
  split.
  - intros Hnone. rewrite Hnone. simpl. eexists. split; reflexivity.
  - intros cls Hcls. rewrite Hcls. reflexivity.
Qed.

End LoaderFacts.

(** ** The output-configuration resolver *)

Section ResolverFacts.
Import OutputConfig OutputPaths.
Context {FS : Type}.
Variable host : Host FS.

Lemma getattr_instance (self : OutputConfiguration) name :
  is_Some (__dict__ self !! name) -> exists v, getattr self name = Ok v.
Proof. intros [v Hv]. exists v. unfold getattr. rewrite Hv. reflexivity. Qed.

Lemma getattr_class (self : OutputConfiguration) name :
  is_Some (class_attributes !! name) -> exists v, getattr self name = Ok v.
Proof.
  intros [v Hv]. unfold getattr.
  destruct (__dict__ self !! name) as [v' |]; [eauto |].
  rewrite Hv. eauto.
Qed.

Lemma directory_Ok (self : OutputConfiguration) :
  is_Some (__dict__ self !! "directory_path") ->
  is_Some (__dict__ self !! "algorithm_name") ->
  exists d, directory host self = Ok d.
Proof.
  intros H1 H2. unfold directory.
  destruct (getattr_instance _ _ H1) as [v1 ->].
  destruct (getattr_instance _ _ H2) as [v2 ->].
  simpl. eauto.
Qed.

(** One optional directory in a run: [os.mkdir] is called when the
    directory is wanted, and nothing happens otherwise. *)
Lemma mkdir_if_requested_run (self : OutputConfiguration) flag path fs v p :
  getattr self flag = Ok v ->
  path self = Ok p ->
  mkdir_if_requested host self flag path fs
  = if wanted host self flag path fs then host_mkdir host p fs else (fs, Ok tt).
Proof.
  intros Hv Hp. unfold wanted, mkdir_if_requested, lift, exists_, bind, ret.
  rewrite Hv, Hp. destruct (truthy v); [| reflexivity].
  destruct (host_exists host p fs); reflexivity.
Qed.

(** The two subdirectory paths of an instance that has a directory. *)
Lemma subdirectory_paths (self : OutputConfiguration) d :
  directory host self = Ok d ->
  (exists p, anomaly_score_plots_directory_path host self = Ok p)
  /\ (exists p, anomaly_scores_directory_path host self = Ok p).
Proof.
  intros Hd. split.
  - unfold anomaly_score_plots_directory_path. rewrite Hd. simpl.
    destruct (getattr_class self "anomaly_scores_plots_directory")
      as [v ->]; [vm_compute; eauto |]. simpl. eauto.
  - unfold anomaly_scores_directory_path. rewrite Hd. simpl.
    destruct (getattr_class self "anomaly_scores_directory")
      as [v ->]; [vm_compute; eauto |]. simpl. eauto.
Qed.

(** The resolver hands an instance back as it is, if anything. *)
Lemma handle_instance_returns_it (c c' : OutputConfiguration) name fs fs' :
  handle_output_configuration host (Instance c) name fs = (fs', Ok c') -> c' = c.
Proof.
  unfold handle_output_configuration. rewrite bind_ret_l. intros H.
  repeat (apply bind_inv in H;
          destruct H as [(e & _ & He) | (? & ? & _ & H)]; [discriminate |]).
  unfold ret in H. inversion H. reflexivity.
Qed.

(** What a resolver that returned was given, when it was given a plain
    value. *)
Lemma handle_plain_algorithm_name plain name fs fs' (c : OutputConfiguration) :
  handle_output_configuration host (Plain plain) name fs = (fs', Ok c) ->
  getattr c "algorithm_name" = Ok (PyStr name).
Proof.
  unfold handle_output_configuration. intros H.
  apply bind_inv in H. destruct H as [(e & _ & He) | (fs1 & c1 & Hc & H)]; [discriminate |].
  assert (Hname : getattr c1 "algorithm_name" = Ok (PyStr name)).
  { apply bind_inv in Hc.
    destruct Hc as [(e & _ & He) | (fs0 & v & _ & Hc)]; [discriminate |].
    unfold lift in Hc. inversion Hc as [[Hfs Hcons]]. clear Hc.
    unfold construct in Hcons. destruct v as [| | | | | | d]; try discriminate.
    destruct (d !! "algorithm_name"); [discriminate |].
    unfold OutputConfiguration_init in Hcons.
    destruct (_ !! "self"); [discriminate |].
    destruct (existsb _ properties); [discriminate |].
    inversion Hcons. unfold getattr. simpl.
    rewrite lookup_insert_eq. reflexivity. }
  repeat (apply bind_inv in H;
          destruct H as [(e & _ & He) | (? & ? & _ & H)]; [discriminate |]).
  unfold ret in H. inversion H; subst. exact Hname.
Qed.

(** C10, amended.  For an [OutputConfiguration] instance that has
    [directory_path] and [algorithm_name] set, when the directory
    creation of the call does not fail ([os.makedirs] on its directory
    succeeds, and so does [os.mkdir] on each subdirectory that is wanted,
    whatever the host does elsewhere), the resolver returns that very
    instance, attributes unchanged, in the file system these calls left;
    whenever it returns for an instance, it returns that instance; the
    [algorithm_name] argument has no part in the outcome; a configuration
    returned for a plain argument (a mapping, or the path of a JSON file)
    has the argument as its [algorithm_name]. *)
Theorem resolver_returns_the_instance
    (output_configuration : OutputConfiguration) (algorithm_name : string)
    (fs fs1 fs2 fs3 : FS) :
  is_Some (__dict__ output_configuration !! "directory_path") ->
  is_Some (__dict__ output_configuration !! "algorithm_name") ->
  (forall d, directory host output_configuration = Ok d ->
             host_makedirs host d fs = (fs1, Ok tt)) ->
  (if wanted host output_configuration "save_anomaly_scores_plot"
        (anomaly_score_plots_directory_path host) fs1
   then forall p, anomaly_score_plots_directory_path host output_configuration = Ok p ->
                  host_mkdir host p fs1 = (fs2, Ok tt)
   else fs2 = fs1) ->
  (if wanted host output_configuration "save_anomaly_scores"
        (anomaly_scores_directory_path host) fs2
   then forall p, anomaly_scores_directory_path host output_configuration = Ok p ->
                  host_mkdir host p fs2 = (fs3, Ok tt)
   else fs3 = fs2) ->
  handle_output_configuration host (Instance output_configuration) algorithm_name fs
  = (fs3, Ok output_configuration)
  /\ (forall other_name fs' c,
        handle_output_configuration host (Instance output_configuration) other_name fs
        = (fs', Ok c) ->
        c = output_configuration)
  /\ (forall other_name,
        handle_output_configuration host (Instance output_configuration) other_name fs
        = handle_output_configuration host (Instance output_configuration) algorithm_name fs)
  /\ (forall plain fs' c,
        handle_output_configuration host (Plain plain) algorithm_name fs = (fs', Ok c) ->
        getattr c "algorithm_name" = Ok (PyStr algorithm_name)).
Proof.
  intros Hdir Hname Hmk Hplots Hscores. split; [| split; [| split]].
  - destruct (directory_Ok _ Hdir Hname) as [d Hd].
    destruct (subdirectory_paths _ _ Hd) as [[p1 Hp1] [p2 Hp2]].
    destruct (getattr_class output_configuration "save_anomaly_scores_plot")
      as [v1 Hv1]; [vm_compute; eauto |].
    destruct (getattr_class output_configuration "save_anomaly_scores")
      as [v2 Hv2]; [vm_compute; eauto |].
    unfold handle_output_configuration.
    rewrite bind_ret_l. unfold lift at 1. unfold bind at 1. rewrite Hd.
    unfold bind at 1. rewrite (Hmk d Hd).
    unfold bind at 1. rewrite (mkdir_if_requested_run _ _ _ _ _ _ Hv1 Hp1).
    assert (H1 : (if wanted host output_configuration "save_anomaly_scores_plot"
                       (anomaly_score_plots_directory_path host) fs1
                  then host_mkdir host p1 fs1 else (fs1, Ok tt)) = (fs2, Ok tt)).
    { destruct (wanted host output_configuration "save_anomaly_scores_plot"
                  (anomaly_score_plots_directory_path host) fs1);
        [apply Hplots; exact Hp1 | rewrite Hplots; reflexivity]. }
    rewrite H1.
    unfold bind at 1. rewrite (mkdir_if_requested_run _ _ _ _ _ _ Hv2 Hp2).
    assert (H2 : (if wanted host output_configuration "save_anomaly_scores"
                       (anomaly_scores_directory_path host) fs2
                  then host_mkdir host p2 fs2 else (fs2, Ok tt)) = (fs3, Ok tt)).
    { destruct (wanted host output_configuration "save_anomaly_scores"
                  (anomaly_scores_directory_path host) fs2);
        [apply Hscores; exact Hp2 | rewrite Hscores; reflexivity]. }
    rewrite H2. reflexivity.
  - intros other_name fs' c. apply handle_instance_returns_it.
  - intros other_name. reflexivity.
  - intros plain fs' c. apply handle_plain_algorithm_name.
Qed.

End ResolverFacts.

(** ** The properties at the concrete components *)

Section Instances.
Import Stubs.

(** The chain of [AddOne] and [Double] is the fold over the two. *)
Lemma chained_fit_transform_is_left_fold_witness :
  ChainedPreprocessor_init "no steps" two_steps
  = Ok {| base_preprocessors := [AddOne; Double] |}
  /\ forall X y w,
       Preprocessor_fit_transform
         (ChainedPreprocessor_as_Preprocessor ","
            {| base_preprocessors := [AddOne; Double] |}) X y w
       = fold_fit_transform [AddOne; Double] X y w.
Proof.
  split; [reflexivity |].
  apply (chained_fit_transform_is_left_fold "no steps" "," two_steps
           {| base_preprocessors := [AddOne; Double] |}).
  reflexivity.
Defined.

(** [Pipeline(Identity, None)] raises. *)
Lemma pipeline_rejects_invalid_arguments_witness :
  isinstance_BaseDetector (ObjOther "None" : StubObj) = false
  /\ exists e,
       Pipeline_init "no steps" "," 1%nat (ObjPreprocessor Identity) (ObjOther "None" : StubObj)
       = Raise e
       /\ InvalidArgument e = true.
Proof.
  split; [reflexivity |].
  destruct (pipeline_rejects_invalid_arguments "no steps" "," 1%nat
              (ObjPreprocessor Identity) (ObjOther "None" : StubObj))
    as (e & He & Hinv & _).
  - right. reflexivity.
  - exists e. split; assumption.
Defined.

(** [Pipeline(DropLast, Ones)] is unsupervised, as [Ones] is. *)
Lemma pipeline_supervision_is_detectors_witness :
  Pipeline_init "no steps" "," 1%nat (ObjPreprocessor DropLast) (ObjDetector Ones)
  = Ok drop_then_ones
  /\ supervision drop_then_ones = BaseDetector_supervision (detector drop_then_ones).
Proof.
  split; [reflexivity |].
  apply (pipeline_supervision_is_detectors "no steps" "," 1%nat
           (ObjPreprocessor DropLast) (ObjDetector Ones) drop_then_ones).
  reflexivity.
Defined.

(** Fitting [Pipeline(DropLast, Ones)]: the preprocessor is fitted, then
    the detector, and the pipeline comes back. *)
Lemma pipeline_fit_runs_both_and_returns_self_witness :
  Pipeline_fit drop_then_ones zeros None fresh
  = ({| fitted := ["DropLast"; "D"]; kept_labels := None |}, Ok drop_then_ones).
Proof.
  apply (pipeline_fit_runs_both_and_returns_self drop_then_ones zeros None fresh
           {| fitted := ["DropLast"]; kept_labels := None |} [0; 0; 0]%Z None
           {| fitted := ["DropLast"; "D"]; kept_labels := None |});
    reflexivity.
Defined.

(** Scoring with [Pipeline(DropLast, Ones)] is [Ones] scoring the three
    elements left. *)
Lemma pipeline_score_is_detector_on_transformed_witness :
  Preprocessor_transform (preprocessor drop_then_ones) zeros None fresh
  = (fresh, Ok ([0; 0; 0]%Z, None))
  /\ Pipeline_decision_function drop_then_ones zeros fresh
     = BaseDetector_decision_function Ones [0; 0; 0]%Z fresh.
Proof.
  split; [reflexivity |].
  apply (proj1 pipeline_score_is_detector_on_transformed _ _ _ _
           drop_then_ones zeros fresh fresh [0; 0; 0]%Z None).
  reflexivity.
Defined.

(** Fitting [Pipeline(DropLast, Failing)] on labelled data: the
    detector's exception comes out, [DropLast] stays fitted and the
    labels the detector kept before raising stay kept. *)
Lemma pipeline_passes_component_failures_on_witness :
  Pipeline_fit drop_then_failing zeros (Some [0; 1; 0; 0]%Z) fresh
  = ({| fitted := ["DropLast"]; kept_labels := Some [0; 1; 0; 0]%Z |},
     Raise (UserError "RuntimeError" "cannot fit"))
  /\ fitted (fst (Pipeline_fit drop_then_failing zeros (Some [0; 1; 0; 0]%Z) fresh))
     = ["DropLast"].
Proof.
  destruct (pipeline_passes_component_failures_on drop_then_failing
              zeros (Some [0; 1; 0; 0]%Z) fresh) as (_ & Hdet & _).
  destruct (Hdet {| fitted := ["DropLast"]; kept_labels := None |}
              [0; 0; 0]%Z (Some [0; 1; 0; 0]%Z)
              {| fitted := ["DropLast"]; kept_labels := Some [0; 1; 0; 0]%Z |}
              (UserError "RuntimeError" "cannot fit"))
    as [Hraise Hview]; [reflexivity | reflexivity |].
  split; [exact Hraise |].
  apply (Hview (list string) fitted). intros X0 y0 w0. reflexivity.
Defined.

(** Loading the configuration in [iforest.json]. *)
Lemma loader_looks_the_class_up_witness :
  load_json_file host "iforest.json" ∅ = Ok (PyDict iforest_configuration)
  /\ iforest_configuration !! "anomaly_detector" = Some (PyStr "IForest")
  /\ AlgorithmConfiguration.handle_algorithm_configuration host registry
       (PyStr "iforest.json") ∅
     = Ok ("IForest", 100%Z).
Proof.
  split; [reflexivity |]. split; [reflexivity |].
  destruct (loader_looks_the_class_up host registry (PyStr "iforest.json") ∅
              iforest_configuration "IForest") as [_ Hload].
  - right. exists "iforest.json". split; reflexivity.
  - reflexivity.
  - rewrite (Hload IForest); reflexivity.
Defined.

(** The description of [Pipeline([AddOne, Double], Ones)]. *)
Lemma pipeline_str_composes_witness :
  exists pipeline,
    Pipeline_init "no steps" "," 1%nat (ObjList two_steps) (ObjDetector Ones) = Ok pipeline
    /\ Pipeline_str pipeline fresh = (fresh, Ok "AddOne,Double->D").
Proof.
  eexists. split; [reflexivity |].
  eapply (proj2 (proj2 (pipeline_str_composes _ fresh)) "no steps" "," 1%nat
            AddOne Double Ones fresh fresh fresh "AddOne" "Double" "D");
    reflexivity.
Defined.

(** Resolving [configured], which asks for the score plots: it comes
    back, [out/IForest] and the plots directory have been made, and the
    name in the argument is not the one the directory is made for. *)
Lemma resolver_returns_the_instance_witness :
  is_Some (OutputConfig.__dict__ configured !! "directory_path")
  /\ is_Some (OutputConfig.__dict__ configured !! "algorithm_name")
  /\ OutputConfig.handle_output_configuration host
       (OutputConfig.Instance configured) "LOF" ∅
     = ({[ "out/IForest/anomaly_score_plots" ]} ∪ ({[ "out/IForest" ]} ∪ ∅),
        Ok configured).
Proof.
  assert (H1 : is_Some (OutputConfig.__dict__ configured !! "directory_path"))
    by (eexists; reflexivity).
  assert (H2 : is_Some (OutputConfig.__dict__ configured !! "algorithm_name"))
    by (eexists; reflexivity).
  split; [exact H1 |]. split; [exact H2 |].
  apply (resolver_returns_the_instance host configured "LOF" ∅
           ({[ "out/IForest" ]} ∪ ∅)
           ({[ "out/IForest/anomaly_score_plots" ]} ∪ ({[ "out/IForest" ]} ∪ ∅))
           ({[ "out/IForest/anomaly_score_plots" ]} ∪ ({[ "out/IForest" ]} ∪ ∅))
           H1 H2).
  - intros d Hd. vm_compute in Hd. injection Hd as <-. reflexivity.
  - replace (OutputPaths.wanted host configured "save_anomaly_scores_plot"
               (OutputConfig.anomaly_score_plots_directory_path host)
               ({[ "out/IForest" ]} ∪ ∅)) with true by (vm_compute; reflexivity).
    intros p Hp. vm_compute in Hp. injection Hp as <-. reflexivity.
  - replace (OutputPaths.wanted host configured "save_anomaly_scores"
               (OutputConfig.anomaly_scores_directory_path host)
               ({[ "out/IForest/anomaly_score_plots" ]} ∪ ({[ "out/IForest" ]} ∪ ∅)))
      with false by (vm_compute; reflexivity).
    reflexivity.
Defined.

(** C10 as stated fails: an instance made with no keyword argument has
    no [directory_path]; the resolver raises [AttributeError] on it
    and returns nothing. *)
Lemma resolver_raises_on_bare_instance :
  OutputConfig.handle_output_configuration host (OutputConfig.Instance bare) "IForest" ∅
  = (∅, Raise (AttributeError
                 "'OutputConfiguration' object has no attribute 'directory_path'"))
  /\ ~ (exists fs',
           OutputConfig.handle_output_configuration host
             (OutputConfig.Instance bare) "IForest" ∅
           = (fs', Ok bare)).
Proof.
  split; [reflexivity |].
  intros [fs' H]. vm_compute in H. discriminate H.
Qed.

End Instances.

(** * Further properties of the code *)

(** ** Pipelines inside pipelines *)

Section NestingFacts.
Context {World Data Scores Supervision : Type}.
Variables msg sep : string.
Abbreviation Det := (BaseDetector World Data Scores Supervision).
Abbreviation Stage := (nat * Preprocessor World Data)%type.

(** A call whose value is thrown away and replaced by [()]. *)
Lemma bind_ignore_unit {A : Type} (c : M World unit) (a : A) (w : World) :
  bind (bind c (fun _ => ret a)) (fun _ => ret tt) w = c w.
Proof.
  unfold bind, ret. destruct (c w) as [w' [[] | e]]; reflexivity.
Qed.

Lemma nest_cons (a : nat) (p : Preprocessor World Data) (rest : list Stage) (d inner : Det) :
  nest msg sep rest d = Ok inner ->
  nest msg sep ((a, p) :: rest) d
  = Ok (Pipeline_as_BaseDetector
          {| address := a; supervision := BaseDetector_supervision inner;
             preprocessor := p; detector := inner |}).
Proof. intros H. simpl. rewrite H. reflexivity. Qed.

(** What a nest that was built is made of. *)
Lemma nest_inv (a : nat) (p : Preprocessor World Data) (rest : list Stage) (d r : Det) :
  nest msg sep ((a, p) :: rest) d = Ok r ->
  exists inner,
    nest msg sep rest d = Ok inner
    /\ r = Pipeline_as_BaseDetector
             {| address := a; supervision := BaseDetector_supervision inner;
                preprocessor := p; detector := inner |}.
Proof.
  simpl. destruct (nest msg sep rest d) as [inner |]; simpl; [| discriminate].
  intros H. inversion H. eauto.
Qed.

(** X1.  Wrapping a detector in any number of pipelines, each with one
    preprocessor, always succeeds, and the outermost pipeline reports the
    supervision of the innermost detector. *)
Theorem nested_pipeline_keeps_supervision (stages : list Stage) (d : Det) :
  exists r, nest msg sep stages d = Ok r
            /\ BaseDetector_supervision r = BaseDetector_supervision d.
Proof.
  induction stages as [| [a p] rest IH].
  - exists d. split; reflexivity.
  - destruct IH as (inner & Hinner & Hsup).
    eexists. split; [apply nest_cons; exact Hinner |]. simpl. exact Hsup.
Qed.

(** X2.  Fitting nested pipelines runs the stages' [fit_transform] from
    the outermost in, each on the data and labels the one before
    returned, and then fits the innermost detector on the last result; an
    exception anywhere ends the run there. *)
Theorem nested_pipeline_fit (stages : list Stage) (d r : Det) :
  nest msg sep stages d = Ok r ->
  forall X y w, BaseDetector_fit r X y w = fit_through (map snd stages) d X y w.
Proof.
  revert r. induction stages as [| [a p] rest IH]; intros r H X y w.
  - simpl in H. inversion H. reflexivity.
  - apply nest_inv in H. destruct H as (inner & Hinner & ->).
    cbn [BaseDetector_fit Pipeline_as_BaseDetector map snd fit_through].
    unfold Pipeline_fit. cbn [preprocessor detector].
    rewrite bind_assoc. apply bind_ext. intros [X' y'] w'.
    rewrite bind_ignore_unit. apply IH. exact Hinner.
Qed.

(** X3.  Scoring with nested pipelines runs the stages' [transform] from
    the outermost in, every one called with [y=None] on the data the one
    before returned (labels a stage returns never reach the next), and
    returns the innermost detector's scores. *)
Theorem nested_pipeline_score (stages : list Stage) (d r : Det) :
  nest msg sep stages d = Ok r ->
  forall X w,
    BaseDetector_decision_function r X w = score_through (map snd stages) d X w.
Proof.
  revert r. induction stages as [| [a p] rest IH]; intros r H X w.
  - simpl in H. inversion H. reflexivity.
  - apply nest_inv in H. destruct H as (inner & Hinner & ->).
    cbn [BaseDetector_decision_function Pipeline_as_BaseDetector map snd score_through].
    unfold Pipeline_decision_function. cbn [preprocessor detector].
    apply bind_ext. intros [X' y'] w'. apply IH. exact Hinner.
Qed.

Lemma concat_cons_app (s name : string) (names : list string) (last : string) :
  String.concat s (name :: (names ++ [last])%list)
  = name ++ s ++ String.concat s (names ++ [last])%list.
Proof. destruct names; reflexivity. Qed.

(** X4.  When every stage and the detector describe themselves by a
    name, nested pipelines describe themselves by the names from the
    outermost stage to the detector, joined by "->". *)
Theorem nested_pipeline_str
    (stages : list Stage) (names : list string) (d r : Det) (D : string) :
  Forall2 (fun stage name => described name (Preprocessor_str (snd stage))) stages names ->
  described D (BaseDetector_str d) ->
  nest msg sep stages d = Ok r ->
  described (String.concat "->" (names ++ [D])%list) (BaseDetector_str r).
Proof.
  intros Hnames HD. revert r.
  induction Hnames as [| [a p] name rest names' Hname Hrest IH]; intros r H.
  - simpl in H. inversion H; subst. exact HD.
  - apply nest_inv in H. destruct H as (inner & Hinner & ->).
    specialize (IH inner Hinner). intros w.
    cbn [BaseDetector_str Pipeline_as_BaseDetector].
    unfold Pipeline_str. cbn [preprocessor detector].
    rewrite (bind_Ok _ _ _ _ _ (Hname w)). rewrite (bind_Ok _ _ _ _ _ (IH w)).
    change ((name :: names') ++ [D])%list with (name :: (names' ++ [D]))%list.
    rewrite concat_cons_app. reflexivity.
Qed.

End NestingFacts.

(** ** Scoring *)

Section ScoringFacts.
Context {World Data Scores Supervision : Type}.
Abbreviation PipeS := (Pipeline World Data Scores Supervision).

(** X5.  When the preprocessor's [transform] and the detector's
    [decision_function] leave the store as they found it,
    [decision_function] of the pipeline does too, whatever their [fit]
    methods do: scoring fits nothing, and scoring again gives the same
    outcome. *)
Theorem score_leaves_store_alone (self : PipeS) :
  (forall X y w, fst (Preprocessor_transform (preprocessor self) X y w) = w) ->
  (forall X w, fst (BaseDetector_decision_function (detector self) X w) = w) ->
  forall X w,
    fst (Pipeline_decision_function self X w) = w
    /\ Pipeline_decision_function self X (fst (Pipeline_decision_function self X w))
       = Pipeline_decision_function self X w.
Proof.
  intros Hpre Hdet X w.
  assert (H : fst (Pipeline_decision_function self X w) = w).
  { unfold Pipeline_decision_function, bind.
    specialize (Hpre X None w).
    destruct (Preprocessor_transform (preprocessor self) X None w) as [w1 [[X' y'] | e]];
      simpl in Hpre; subst w1; [apply Hdet | reflexivity]. }
  split; [exact H |]. rewrite H. reflexivity.
Qed.

(** X6.  The labels the preprocessor's [transform] returns have no part
    in the scores: a pipeline whose preprocessor returns other labels
    scores the same, in the same store. *)
Theorem score_ignores_returned_labels
    (self : PipeS) (f : option Data -> option Data) X w :
  Pipeline_decision_function
    {| address := address self; supervision := supervision self;
       preprocessor := relabel f (preprocessor self); detector := detector self |} X w
  = Pipeline_decision_function self X w.
Proof.
  unfold Pipeline_decision_function. cbn [preprocessor detector relabel Preprocessor_transform].
  rewrite bind_assoc. apply bind_ext. intros [X' y'] w'. reflexivity.
Qed.

End ScoringFacts.

(** ** The configuration loader: what goes wrong, and what a result tells *)

Section LoaderEdges.
Import AlgorithmConfiguration.
Context {FS TimeSeriesAnomalyDetector : Type}.
Variable host : Host FS.
Variable anomaly_detection : gmap string (DetectorClass TimeSeriesAnomalyDetector).

(** X7.  A configuration, given as a mapping or read from a JSON file,
    that has no entry "anomaly_detector" makes the loader raise
    [KeyError] for that key, whatever classes the module holds. *)
Theorem loader_missing_identifier
    (argument : PyVal) (fs : FS) (configuration : gmap string PyVal) :
  read_algorithm_configuration host argument fs = Ok (PyDict configuration) ->
  configuration !! "anomaly_detector" = None ->
  handle_algorithm_configuration host anomaly_detection argument fs
  = Raise (KeyError "anomaly_detector").
Proof.
  intros Hread Hkey. unfold handle_algorithm_configuration.
  rewrite Hread. simpl. rewrite Hkey. reflexivity.
Qed.

(** X8.  A configuration that is not a mapping (a list, a number, [None],
    or a JSON document whose top level is a string), makes the loader
    raise [TypeError], and so does an entry "anomaly_detector" that is
    not a string; no class is looked up. *)
Theorem loader_rejects_other_shapes (argument : PyVal) (fs : FS) (value : PyVal) :
  read_algorithm_configuration host argument fs = Ok value ->
  (forall d, value = PyDict d ->
             exists name, d !! "anomaly_detector" = Some name
                          /\ forall s, name <> PyStr s) ->
  exists text,
    handle_algorithm_configuration host anomaly_detection argument fs
    = Raise (TypeError text).
Proof.
  intros Hread Hshape. unfold handle_algorithm_configuration. rewrite Hread. simpl.
  destruct value as [| b | z | f | s | l | d]; simpl; try (eexists; reflexivity).
  destruct (Hshape d eq_refl) as (name & Hname & Hnot). rewrite Hname. simpl.
  destruct name; simpl; try (eexists; reflexivity).
  exfalso. eapply Hnot. reflexivity.
Qed.

(** X9.  Given a path, the loader does what it does given the mapping the
    file holds; when the file cannot be opened or is not JSON the
    exception of [open] or [json.load] is what the loader raises. *)
Theorem loader_path_reads_the_file (path : string) (fs : FS) :
  (forall d, load_json_file host path fs = Ok (PyDict d) ->
             handle_algorithm_configuration host anomaly_detection (PyStr path) fs
             = handle_algorithm_configuration host anomaly_detection (PyDict d) fs)
  /\ (forall e, load_json_file host path fs = Raise e ->
                handle_algorithm_configuration host anomaly_detection (PyStr path) fs
                = Raise e).
Proof.
  split.
  - intros d H. unfold handle_algorithm_configuration. simpl. rewrite H. reflexivity.
  - intros e H. unfold handle_algorithm_configuration. simpl. rewrite H. reflexivity.
Qed.

(** X10.  A detector the loader returns comes from a class the module
    binds to the name under "anomaly_detector" in a mapping, and is what
    that class's [load] returned on the whole mapping, the name entry
    included. *)
Theorem loader_result_comes_from_a_class
    (argument : PyVal) (fs : FS) (detector : TimeSeriesAnomalyDetector) :
  handle_algorithm_configuration host anomaly_detection argument fs = Ok detector ->
  exists configuration name cls,
    read_algorithm_configuration host argument fs = Ok (PyDict configuration)
    /\ configuration !! "anomaly_detector" = Some (PyStr name)
    /\ anomaly_detection !! name = Some cls
    /\ load cls (PyDict configuration) = Ok detector.
Proof.
  unfold handle_algorithm_configuration.
  destruct (read_algorithm_configuration host argument fs) as [value | e]; simpl;
    [| discriminate].
  destruct value as [| b | z | f | s | l | d]; simpl; try discriminate.
  destruct (d !! "anomaly_detector") as [name |] eqn:Hname; simpl; [| discriminate].
  destruct name as [| b | z | f | s | l | d']; simpl; try discriminate.
  destruct (anomaly_detection !! s) as [cls |] eqn:Hcls; simpl; [| discriminate].
  intros H. exists d, s, cls. repeat split; assumption.
Qed.

End LoaderEdges.

(** ** OutputConfiguration: attributes and paths *)

Section ConfigurationFacts.
Import OutputConfig OutputPaths.
Context {FS : Type}.
Variable host : Host FS.
Variable lower : string -> string.

Lemma append_cancel_l (p x y : string) : p ++ x = p ++ y -> x = y.
Proof.
  induction p as [| ch p IH]; [trivial |].
  change (String ch (p ++ x) = String ch (p ++ y) -> x = y).
  intros H. inversion H. auto.
Qed.

Lemma existsb_properties (kwargs : gmap string PyVal) :
  existsb (fun p => bool_decide (is_Some (kwargs !! p))) properties = true
  <-> exists p, In p properties /\ is_Some (kwargs !! p).
Proof.
  rewrite existsb_exists. split; intros (p & Hin & H); exists p; split; try assumption.
  - apply bool_decide_eq_true in H. exact H.
  - apply bool_decide_eq_true. exact H.
Qed.

(** X11.  Constructing an [OutputConfiguration] from ordinary keywords
    has one of three outcomes: [TypeError] exactly when a keyword is
    named [self] (it collides with the first parameter); otherwise
    [AttributeError] exactly when a keyword names one of the read-only
    properties ([directory], [results_path], the two directory paths);
    otherwise an instance, whatever the other keywords are, known to the
    class or not. *)
Theorem configuration_construction_outcomes (kwargs : gmap string PyVal) :
  ordinary kwargs ->
  (is_Some (kwargs !! "self")
   <-> exists text, OutputConfiguration_init kwargs = Raise (TypeError text))
  /\ (kwargs !! "self" = None /\ (exists p, In p properties /\ is_Some (kwargs !! p))
      <-> exists text, OutputConfiguration_init kwargs = Raise (AttributeError text))
  /\ (kwargs !! "self" = None /\ (forall p, In p properties -> kwargs !! p = None)
      <-> exists c, OutputConfiguration_init kwargs = Ok c).
Proof.
  intros _. unfold OutputConfiguration_init.
  destruct (kwargs !! "self") as [v |] eqn:Hself.
  { split; [| split]; split.
    - intros _. eexists. reflexivity.
    - intros _. eauto.
    - intros [H _]. discriminate.
    - intros [text H]. discriminate.
    - intros [H _]. discriminate.
    - intros [c H]. discriminate. }
  destruct (existsb _ properties) eqn:E.
  - apply existsb_properties in E. split; [| split]; split.
    + intros [v H]. discriminate.
    + intros [text H]. discriminate.
    + intros _. eexists. reflexivity.
    + intros _. split; [reflexivity | exact E].
    + intros [_ Hnone]. destruct E as (p & Hin & [v Hv]). rewrite (Hnone p Hin) in Hv.
      discriminate.
    + intros [c Hc]. discriminate.
  - assert (Hnone : forall p, In p properties -> kwargs !! p = None).
    { intros p Hin. destruct (kwargs !! p) as [v |] eqn:Hv; [| reflexivity].
      assert (Ht : existsb (fun p => bool_decide (is_Some (kwargs !! p))) properties = true)
        by (apply existsb_properties; exists p; split; [exact Hin | rewrite Hv; eauto]).
      rewrite Ht in E. discriminate. }
    split; [| split]; split.
    + intros [v H]. discriminate.
    + intros [text H]. discriminate.
    + intros [_ (p & Hin & [v Hv])]. rewrite (Hnone p Hin) in Hv. discriminate.
    + intros [text H]. discriminate.
    + intros _. eexists. reflexivity.
    + intros _. split; [reflexivity | exact Hnone].
Qed.


Lemma getattr_required (self : OutputConfiguration) (name : string) :
  class_attributes !! name = None ->
  (exists v, getattr self name = Ok v) <-> is_Some (__dict__ self !! name).
Proof.
  intros Hnone. unfold getattr. rewrite Hnone.
  destruct (__dict__ self !! name) as [v |]; split.
  - intros _. eauto.
  - intros _. eauto.
  - intros [v H]. discriminate.
  - intros [v H]. discriminate.
Qed.

Lemma getattr_defaulted (self : OutputConfiguration) (name : string) :
  is_Some (class_attributes !! name) -> exists v, getattr self name = Ok v.
Proof.
  intros [v Hv]. unfold getattr.
  destruct (__dict__ self !! name) as [v' |]; [eauto |]. rewrite Hv. eauto.
Qed.

Lemma directory_defined (self : OutputConfiguration) :
  (exists d, directory host self = Ok d)
  <-> is_Some (__dict__ self !! "directory_path")
      /\ is_Some (__dict__ self !! "algorithm_name").
Proof.
  rewrite <- (getattr_required self "directory_path") by reflexivity.
  rewrite <- (getattr_required self "algorithm_name") by reflexivity.
  unfold directory.
  destruct (getattr self "directory_path") as [v1 | e1]; simpl.
  - destruct (getattr self "algorithm_name") as [v2 | e2]; simpl.
    + split; [intros _; split; eauto | intros _; eauto].
    + split; [intros [d H]; discriminate | intros [_ [v H]]; discriminate].
  - split; [intros [d H]; discriminate | intros [[v H] _]; discriminate].
Qed.

(** A path made of the directory and an attribute the class has a default
    for is there whenever the directory is. *)
Lemma subpath_defined (self : OutputConfiguration) (name : string)
    (path : OutputConfiguration -> result string) :
  is_Some (class_attributes !! name) ->
  (forall c, path c = (let? d := directory host c in
                       let? sub := getattr c name in
                       Ok (d ++ "/" ++ format_value host sub))) ->
  (exists p, path self = Ok p) <-> exists d, directory host self = Ok d.
Proof.
  intros Hdef Hpath. rewrite Hpath.
  destruct (directory host self) as [d | e]; simpl.
  - destruct (getattr_defaulted self name Hdef) as [v ->]. simpl.
    split; intros _; eauto.
  - split; intros [p H]; discriminate.
Qed.

(** The three paths of the properties are there whenever the directory
    is. *)
Lemma directory_subpaths_defined (self : OutputConfiguration) :
  ((exists p, results_path host self = Ok p)
   <-> exists d, directory host self = Ok d)
  /\ ((exists p, anomaly_score_plots_directory_path host self = Ok p)
      <-> exists d, directory host self = Ok d)
  /\ ((exists p, anomaly_scores_directory_path host self = Ok p)
      <-> exists d, directory host self = Ok d).
Proof.
  split; [| split].
  - apply (subpath_defined self "results_file"); [vm_compute; eauto | reflexivity].
  - apply (subpath_defined self "anomaly_scores_plots_directory");
      [vm_compute; eauto | reflexivity].
  - apply (subpath_defined self "anomaly_scores_directory");
      [vm_compute; eauto | reflexivity].
Qed.

(** X13.  [directory] has a value exactly when both [directory_path] and
    [algorithm_name] were set on the instance (the class holds no
    default for either), and [results_path] and the two directory paths
    have a value exactly when [directory] has. *)
Theorem directory_needs_both_attributes (self : OutputConfiguration) :
  ((exists d, directory host self = Ok d)
   <-> is_Some (__dict__ self !! "directory_path")
       /\ is_Some (__dict__ self !! "algorithm_name"))
  /\ ((exists p, results_path host self = Ok p)
      <-> exists d, directory host self = Ok d)
  /\ ((exists p, anomaly_score_plots_directory_path host self = Ok p)
      <-> exists d, directory host self = Ok d)
  /\ ((exists p, anomaly_scores_directory_path host self = Ok p)
      <-> exists d, directory host self = Ok d).
Proof.
  split; [apply directory_defined | apply directory_subpaths_defined].
Qed.

Lemma under_assoc (d a b : string) : under d ((d ++ "/" ++ a) ++ b).
Proof. exists (a ++ b). rewrite !append_assoc. reflexivity. Qed.

(** X14.  Every path the configuration derives, the three of the
    properties and the three made for a dataset index, lies below
    [directory]. *)
Theorem paths_lie_under_directory (self : OutputConfiguration) (d : string) :
  directory host self = Ok d ->
  (forall p, results_path host self = Ok p -> under d p)
  /\ (forall p, anomaly_score_plots_directory_path host self = Ok p -> under d p)
  /\ (forall p, anomaly_scores_directory_path host self = Ok p -> under d p)
  /\ (forall index p, intermediate_results_path host lower self index = Ok p -> under d p)
  /\ (forall index p, anomaly_score_plot_path host lower self index = Ok p -> under d p)
  /\ (forall index p, anomaly_scores_path host lower self index = Ok p -> under d p).
Proof.
  intros Hd.
  assert (Hsub : forall name p,
             (let? d' := directory host self in
              let? sub := getattr self name in
              Ok (d' ++ "/" ++ format_value host sub)) = Ok p -> under d p).
  { intros name p. rewrite Hd. simpl.
    destruct (getattr self name) as [v | e]; simpl; [| discriminate].
    intros H. inversion H. eexists. reflexivity. }
  split; [apply (Hsub "results_file") |].
  split; [apply (Hsub "anomaly_scores_plots_directory") |].
  split; [apply (Hsub "anomaly_scores_directory") |].
  split; [| split].
  - intros index p. unfold intermediate_results_path. rewrite Hd. simpl.
    destruct (call_dataset_index_to_str lower self index) as [i | e]; simpl;
      [| discriminate].
    intros H. inversion H. exists ("tmp_intermediate_results_" ++ i ++ ".csv").
    reflexivity.
  - intros index p. unfold anomaly_score_plot_path.
    destruct (anomaly_score_plots_directory_path host self) as [q | e] eqn:Hq; simpl;
      [| discriminate].
    apply (Hsub "anomaly_scores_plots_directory") in Hq. destruct Hq as [rest ->].
    destruct (call_dataset_index_to_str lower self index) as [i | e]; simpl;
      [| discriminate].
    destruct (getattr self "anomaly_scores_plots_file_format") as [v | e]; simpl;
      [| discriminate].
    intros H. inversion H. apply under_assoc.
  - intros index p. unfold anomaly_scores_path.
    destruct (anomaly_scores_directory_path host self) as [q | e] eqn:Hq; simpl;
      [| discriminate].
    apply (Hsub "anomaly_scores_directory") in Hq. destruct Hq as [rest ->].
    destruct (call_dataset_index_to_str lower self index) as [i | e]; simpl;
      [| discriminate].
    intros H. inversion H. apply under_assoc.
Qed.

(** X15.  Two configurations with the same [directory_path] and
    algorithm names that are strings have the same [directory] only when
    the names are the same: the results of different algorithms are kept
    apart. *)
Theorem directory_separates_algorithms
    (self other : OutputConfiguration) (directory_path name name' : string) :
  getattr self "directory_path" = Ok (PyStr directory_path) ->
  getattr other "directory_path" = Ok (PyStr directory_path) ->
  getattr self "algorithm_name" = Ok (PyStr name) ->
  getattr other "algorithm_name" = Ok (PyStr name') ->
  directory host self = directory host other ->
  name = name'.
Proof.
  intros H1 H2 H3 H4. unfold directory. rewrite H1, H2, H3, H4. simpl.
  intros H. inversion H as [Heq].
  apply append_cancel_l in Heq. apply (append_cancel_l "/") in Heq. exact Heq.
Qed.

End ConfigurationFacts.

(** ** The output-configuration resolver: failures, results, directories *)

Section ResolverEdges.
Import OutputConfig OutputPaths.
Context {FS : Type}.
Variable host : Host FS.

(** The resolver once the configuration is at hand (lines 94 to 105). *)
Lemma handle_with_configuration (argument : Argument) (name : string)
    (fs fs0 : FS) (c : OutputConfiguration) :
  match argument with
  | Instance oc => fs0 = fs /\ c = oc
  | Plain (PyStr path) =>
      fs0 = fs /\ exists v, load_json_file host path fs = Ok v /\ construct v name = Ok c
  | Plain plain => fs0 = fs /\ construct plain name = Ok c
  end ->
  handle_output_configuration host argument name fs
  = (let* d := lift (directory host c) in
     let* _ := host_makedirs host d in
     let* _ := mkdir_if_requested host c "save_anomaly_scores_plot"
                 (anomaly_score_plots_directory_path host) in
     let* _ := mkdir_if_requested host c "save_anomaly_scores"
                 (anomaly_scores_directory_path host) in
     ret c) fs0.
Proof.
  unfold handle_output_configuration.
  destruct argument as [oc | plain].
  - intros [-> ->]. reflexivity.
  - destruct plain as [| b | z | f | path | l | d];
      try (intros [-> H]; unfold bind at 1; unfold bind at 1; unfold ret at 1, lift at 1;
           rewrite H; reflexivity).
    intros [-> (v & Hv & H)]. unfold bind at 1. unfold bind at 1. rewrite Hv.
    unfold lift at 1. rewrite H. reflexivity.
Qed.

(** What the resolver was given when it got as far as a configuration. *)
Lemma handle_inv (argument : Argument) (name : string) (fs fs' : FS)
    (c : OutputConfiguration) :
  handle_output_configuration host argument name fs = (fs', Ok c) ->
  match argument with
  | Instance oc => c = oc
  | Plain (PyStr path) =>
      exists v, load_json_file host path fs = Ok v /\ construct v name = Ok c
  | Plain plain => construct plain name = Ok c
  end
  /\ exists d fs1 fs2,
       directory host c = Ok d
       /\ host_makedirs host d fs = (fs1, Ok tt)
       /\ mkdir_if_requested host c "save_anomaly_scores_plot"
            (anomaly_score_plots_directory_path host) fs1 = (fs2, Ok tt)
       /\ mkdir_if_requested host c "save_anomaly_scores"
            (anomaly_scores_directory_path host) fs2 = (fs', Ok tt).
Proof.
  unfold handle_output_configuration. intros H.
  apply bind_inv in H. destruct H as [(e & _ & He) | (fs0 & c0 & Hc & H)]; [discriminate |].
  apply bind_inv in H. destruct H as [(e & _ & He) | (fs0' & d & Hd & H)]; [discriminate |].
  unfold lift in Hd. injection Hd as <- Hd.
  apply bind_inv in H. destruct H as [(e & _ & He) | (fs1 & [] & Hmk & H)]; [discriminate |].
  apply bind_inv in H. destruct H as [(e & _ & He) | (fs2 & [] & H1 & H)]; [discriminate |].
  apply bind_inv in H. destruct H as [(e & _ & He) | (fs3 & [] & H2 & H)]; [discriminate |].
  unfold ret in H. injection H as -> ->.
  assert (Hfs : fs0 = fs /\
                match argument with
                | Instance oc => c = oc
                | Plain (PyStr path) =>
                    exists v, load_json_file host path fs = Ok v /\ construct v name = Ok c
                | Plain plain => construct plain name = Ok c
                end).
  { destruct argument as [oc | plain].
    - unfold ret in Hc. injection Hc as <- <-. split; reflexivity.
    - apply bind_inv in Hc.
      destruct Hc as [(e & _ & He) | (fs00 & v & Hv & Hc)]; [discriminate |].
      unfold lift in Hc. injection Hc as <- Hc.
      destruct plain as [| b | z | f | path | l | d'];
        try (unfold ret in Hv; injection Hv as <- <-; split; [reflexivity | assumption]).
      injection Hv as <- Hv. split; [reflexivity |]. eauto. }
  destruct Hfs as [-> Harg]. split; [exact Harg |].
  exists d, fs1, fs2. repeat split; assumption.
Qed.

(** A mapping that cannot be made into a configuration. *)
Lemma handle_construct_fails (d : gmap string PyVal) (name : string) (fs : FS) (e : PyExc) :
  construct (PyDict d) name = Raise e ->
  handle_output_configuration host (Plain (PyDict d)) name fs = (fs, Raise e).
Proof.
  intros H. unfold handle_output_configuration.
  unfold bind at 1. unfold bind at 1. unfold ret at 1, lift at 1.
  rewrite H. reflexivity.
Qed.

(** X16.  A plain argument that cannot be read or cannot be made into a
    configuration, and an instance without [directory], make the
    resolver raise before it touches the file system: the exception is
    the one of the failing step and no directory has been created. *)
Theorem resolver_fails_before_creating (name : string) (fs : FS) (e : PyExc) :
  (forall path, load_json_file host path fs = Raise e ->
                handle_output_configuration host (Plain (PyStr path)) name fs
                = (fs, Raise e))
  /\ (forall path v, load_json_file host path fs = Ok v -> construct v name = Raise e ->
                     handle_output_configuration host (Plain (PyStr path)) name fs
                     = (fs, Raise e))
  /\ (forall d, construct (PyDict d) name = Raise e ->
                handle_output_configuration host (Plain (PyDict d)) name fs
                = (fs, Raise e))
  /\ (forall c, directory host c = Raise e ->
                handle_output_configuration host (Instance c) name fs = (fs, Raise e)).
Proof.
  split; [| split; [| split]]; try unfold handle_output_configuration.
  - intros path H. unfold bind at 1. unfold bind at 1. rewrite H. reflexivity.
  - intros path v Hv H. unfold bind at 1. unfold bind at 1. rewrite Hv.
    unfold lift at 1. rewrite H. reflexivity.
  - intros d H. apply handle_construct_fails. exact H.
  - intros c H. rewrite bind_ret_l. unfold bind at 1. unfold lift at 1.
    rewrite H. reflexivity.
Qed.


End ResolverEdges.

Section ResolverDirectories.
Import OutputConfig OutputPaths.
Context {FS : Type}.
Variable host : Host FS.

(** One optional directory: what is there afterwards. *)
Lemma mkdir_if_requested_post (c : OutputConfiguration) (flag : string)
    (path : OutputConfiguration -> result string) (fs fs' : FS) :
  creates_directories host ->
  mkdir_if_requested host c flag path fs = (fs', Ok tt) ->
  (forall other, host_exists host other fs = true -> host_exists host other fs' = true)
  /\ (forall v p, getattr c flag = Ok v -> truthy v = true -> path c = Ok p ->
                  host_exists host p fs' = true).
Proof.
  intros (_ & Hmade & Hkept). unfold mkdir_if_requested, lift, exists_, bind, ret.
  destruct (getattr c flag) as [v |]; [| discriminate].
  destruct (truthy v) eqn:Hv.
  - destruct (path c) as [p |]; [| discriminate].
    destruct (host_exists host p fs) eqn:Hp; simpl.
    + intros H. injection H as <-. split; [auto |].
      intros v' p' Hv' _ Hp'. injection Hp' as <-. exact Hp.
    + intros H. split.
      * intros other Ho. eapply Hkept; eassumption.
      * intros v' p' _ _ Hp'. injection Hp' as <-. eapply Hmade. exact H.
  - intros H. injection H as <-. split; [auto |].
    intros v' p' Hv' Ht. injection Hv' as <-. rewrite Hv in Ht. discriminate.
Qed.

(** One optional directory that is not wanted: nothing happens. *)
Lemma mkdir_if_requested_unwanted (c : OutputConfiguration) (flag : string)
    (path : OutputConfiguration -> result string) (fs : FS) :
  (exists v, getattr c flag = Ok v) ->
  (exists p, path c = Ok p) ->
  wanted host c flag path fs = false ->
  mkdir_if_requested host c flag path fs = (fs, Ok tt).
Proof.
  intros [v Hv] [p Hp]. unfold wanted, mkdir_if_requested, lift, exists_, bind, ret.
  rewrite Hv, Hp. destruct (truthy v); [| reflexivity].
  simpl. intros ->. reflexivity.
Qed.

(** X18.  On a host that creates what it is asked to, whenever the
    resolver returns a configuration (of ordinary attributes), for
    whatever argument, the configuration's [directory] exists, and so
    does each of the two subdirectories whose flag is set. *)
Theorem resolver_directories_exist
    (argument : Argument) (name : string) (fs fs' : FS) (c : OutputConfiguration) :
  creates_directories host ->
  ordinary (__dict__ c) ->
  handle_output_configuration host argument name fs = (fs', Ok c) ->
  (exists d, directory host c = Ok d /\ host_exists host d fs' = true)
  /\ (forall v p, getattr c "save_anomaly_scores_plot" = Ok v -> truthy v = true ->
                  anomaly_score_plots_directory_path host c = Ok p ->
                  host_exists host p fs' = true)
  /\ (forall v p, getattr c "save_anomaly_scores" = Ok v -> truthy v = true ->
                  anomaly_scores_directory_path host c = Ok p ->
                  host_exists host p fs' = true).
Proof.
  intros Hhost _ H. apply handle_inv in H.
  destruct H as (_ & d & fs1 & fs2 & Hd & Hmk & H1 & H2).
  destruct (mkdir_if_requested_post _ _ _ _ _ Hhost H1) as [Hkept1 Hmade1].
  destruct (mkdir_if_requested_post _ _ _ _ _ Hhost H2) as [Hkept2 Hmade2].
  split; [| split].
  - exists d. split; [exact Hd |]. apply Hkept2, Hkept1.
    apply (proj1 Hhost d fs fs1). exact Hmk.
  - intros v p Hv Ht Hp. apply Hkept2. eapply Hmade1; eassumption.
  - exact Hmade2.
Qed.

(** X19.  For an instance whose [directory] is made, or found, without
    failure, and neither of whose subdirectories is wanted (the flag is
    not set, or the subdirectory exists), the resolver does nothing
    beyond [os.makedirs] on [directory]: [os.mkdir] is not called. *)
Theorem resolver_creates_only_what_is_wanted
    (c : OutputConfiguration) (name d : string) (fs fs1 : FS) :
  directory host c = Ok d ->
  host_makedirs host d fs = (fs1, Ok tt) ->
  wanted host c "save_anomaly_scores_plot" (anomaly_score_plots_directory_path host) fs1
  = false ->
  wanted host c "save_anomaly_scores" (anomaly_scores_directory_path host) fs1
  = false ->
  handle_output_configuration host (Instance c) name fs = (fs1, Ok c).
Proof.
  intros Hd Hmk Hw1 Hw2.
  rewrite (handle_with_configuration host (Instance c) name fs fs c) by (split; reflexivity).
  unfold bind at 1. unfold lift at 1. rewrite Hd.
  unfold bind at 1. rewrite Hmk.
  assert (Hdir : exists d', directory host c = Ok d') by eauto.
  pose proof (directory_subpaths_defined host c) as Hsub.
  unfold bind at 1. rewrite mkdir_if_requested_unwanted; try assumption.
  - unfold bind at 1. rewrite mkdir_if_requested_unwanted; try assumption.
    + reflexivity.
    + apply getattr_defaulted. vm_compute. eauto.
    + apply (proj2 (proj2 Hsub)). exact Hdir.
  - apply getattr_defaulted. vm_compute. eauto.
  - apply (proj1 (proj2 Hsub)). exact Hdir.
Qed.

End ResolverDirectories.

(** ** The further properties at the concrete components *)

Section MoreInstances.
Import Stubs MoreStubs.
Import OutputConfig OutputPaths.

(** [Pipeline(AddOne, Pipeline(Double, Ones))]: fitting it on [[0,0,0,0]]
    fits [AddOne], [Double] and the detector, in this order. *)
Lemma nested_pipeline_fit_witness :
  exists r,
    nest "no steps" "," two_stages Ones = Ok r
    /\ BaseDetector_fit r zeros None fresh
       = ({| fitted := ["AddOne"; "Double"; "D"]; kept_labels := None |}, Ok tt).
Proof.
  eexists. split; [reflexivity |].
  rewrite (nested_pipeline_fit "no steps" "," two_stages Ones _ eq_refl).
  reflexivity.
Defined.

(** Scoring with [Pipeline(AddOne, Pipeline(DropLast, Ones))]. *)
Lemma nested_pipeline_score_witness :
  exists r,
    nest "no steps" "," [(3, AddOne); (4, DropLast)] Ones = Ok r
    /\ BaseDetector_decision_function r zeros fresh
       = (fresh, Ok [1.0; 1.0; 1.0]%float).
Proof.
  eexists. split; [reflexivity |].
  rewrite (nested_pipeline_score "no steps" "," [(3, AddOne); (4, DropLast)] Ones _ eq_refl).
  reflexivity.
Defined.

(** The description of [Pipeline(AddOne, Pipeline(Double, Ones))]. *)
Lemma nested_pipeline_str_witness :
  exists r,
    nest "no steps" "," two_stages Ones = Ok r
    /\ BaseDetector_str r fresh = (fresh, Ok "AddOne->Double->D").
Proof.
  eexists. split; [reflexivity |].
  apply (nested_pipeline_str "no steps" "," two_stages ["AddOne"; "Double"] Ones _ "D").
  - repeat constructor.
  - intros w. reflexivity.
  - reflexivity.
Defined.

(** Scoring with [Pipeline(DropLast, Ones)] changes nothing in a store
    where both were fitted. *)
Lemma score_leaves_store_alone_witness :
  fst (Pipeline_decision_function drop_then_ones zeros
         {| fitted := ["DropLast"; "D"]; kept_labels := None |})
  = {| fitted := ["DropLast"; "D"]; kept_labels := None |}.
Proof.
  apply (score_leaves_store_alone drop_then_ones).
  - intros X y w. reflexivity.
  - intros X w. reflexivity.
Defined.

(** An empty mapping has no "anomaly_detector". *)
Lemma loader_missing_identifier_witness :
  AlgorithmConfiguration.handle_algorithm_configuration host registry (PyDict ∅) ∅
  = Raise (KeyError "anomaly_detector").
Proof.
  apply (loader_missing_identifier host registry (PyDict ∅) ∅ ∅); reflexivity.
Defined.

(** A list is no configuration. *)
Lemma loader_rejects_other_shapes_witness :
  exists text,
    AlgorithmConfiguration.handle_algorithm_configuration host registry
      (PyList [PyStr "IForest"]) ∅
    = Raise (TypeError text).
Proof.
  apply (loader_rejects_other_shapes host registry (PyList [PyStr "IForest"]) ∅
           (PyList [PyStr "IForest"])).
  - reflexivity.
  - intros d H. discriminate H.
Defined.

(** [iforest.json] is read as the mapping it holds; a path to no file
    raises what [open] raises. *)
Lemma loader_path_reads_the_file_witness :
  AlgorithmConfiguration.handle_algorithm_configuration host registry
    (PyStr "iforest.json") ∅
  = AlgorithmConfiguration.handle_algorithm_configuration host registry
      (PyDict iforest_configuration) ∅
  /\ AlgorithmConfiguration.handle_algorithm_configuration host registry
       (PyStr "missing.json") ∅
     = Raise (OSError "No such file or directory").
Proof.
  split.
  - apply (proj1 (loader_path_reads_the_file host registry "iforest.json" ∅)).
    reflexivity.
  - apply (proj2 (loader_path_reads_the_file host registry "missing.json" ∅)).
    reflexivity.
Defined.

(** The detector loaded from [iforest.json] comes from [IForest]. *)
Lemma loader_result_comes_from_a_class_witness :
  exists configuration name cls,
    AlgorithmConfiguration.read_algorithm_configuration host (PyStr "iforest.json") ∅
    = Ok (PyDict configuration)
    /\ configuration !! "anomaly_detector" = Some (PyStr name)
    /\ registry !! name = Some cls
    /\ AlgorithmConfiguration.load cls (PyDict configuration) = Ok ("IForest", 100%Z).
Proof.
  apply (loader_result_comes_from_a_class host registry (PyStr "iforest.json") ∅).
  reflexivity.
Defined.

(** Keywords that name none of the slots. *)
Lemma ordinary_keywords (kwargs : gmap string PyVal) :
  forallb (fun k => bool_decide (kwargs !! k = None)) slots = true -> ordinary kwargs.
Proof.
  intros H k Hk. rewrite forallb_forall in H.
  eapply bool_decide_eq_true_1. apply H. exact Hk.
Qed.

(** A keyword [directory] is refused as an attribute, a keyword [self]
    as an argument. *)
Lemma configuration_construction_outcomes_witness :
  (exists text,
      OutputConfiguration_init {[ "directory" := PyStr "out" ]}
      = Raise (AttributeError text))
  /\ (exists text,
        OutputConfiguration_init {[ "self" := PyStr "out" ]} = Raise (TypeError text)).
Proof.
  assert (Hord : ordinary ({[ "directory" := PyStr "out" ]} : gmap string PyVal))
    by (apply ordinary_keywords; vm_compute; reflexivity).
  assert (Hord' : ordinary ({[ "self" := PyStr "out" ]} : gmap string PyVal))
    by (apply ordinary_keywords; vm_compute; reflexivity).
  split.
  - apply (proj1 (proj1 (proj2 (configuration_construction_outcomes
                                  {[ "directory" := PyStr "out" ]} Hord)))).
    split; [reflexivity |].
    exists "directory". split; [left; reflexivity | eexists; reflexivity].
  - apply (proj1 (proj1 (configuration_construction_outcomes
                           {[ "self" := PyStr "out" ]} Hord'))).
    eexists. reflexivity.
Defined.


(** [configured] has a directory; an instance without keywords has
    none. *)
Lemma directory_needs_both_attributes_witness :
  (exists d, directory host configured = Ok d)
  /\ ~ (exists d, directory host bare = Ok d).
Proof.
  split.
  - apply (proj1 (directory_needs_both_attributes host configured)).
    split; eexists; reflexivity.
  - intros H.
    apply (proj1 (directory_needs_both_attributes host bare)) in H.
    destruct H as [[v Hv] _]. discriminate Hv.
Defined.

(** The plot of dataset [("Demo", "A")] lies below [out/IForest]. *)
Lemma paths_lie_under_directory_witness :
  directory host configured = Ok "out/IForest"
  /\ anomaly_score_plot_path host lower configured ("Demo", "A")
     = Ok "out/IForest/anomaly_score_plots/demo_a.svg"
  /\ under "out/IForest" "out/IForest/anomaly_score_plots/demo_a.svg".
Proof.
  split; [reflexivity |]. split; [reflexivity |].
  destruct (paths_lie_under_directory host lower configured "out/IForest" eq_refl)
    as (_ & _ & _ & _ & Hplot & _).
  apply (Hplot ("Demo", "A")). reflexivity.
Defined.

(** Two instances in [out] with one directory have one algorithm name. *)
Lemma directory_separates_algorithms_witness :
  directory host configured
  = directory host
      {| __dict__ := <["directory_path" := PyStr "out"]>
                       (<["algorithm_name" := PyStr "IForest"]> ∅) |}
  /\ "IForest" = "IForest".
Proof.
  split; [reflexivity |].
  apply (directory_separates_algorithms host configured
           {| __dict__ := <["directory_path" := PyStr "out"]>
                            (<["algorithm_name" := PyStr "IForest"]> ∅) |}
           "out" "IForest" "IForest"); reflexivity.
Defined.

(** An instance without keywords is refused with nothing created. *)
Lemma resolver_fails_before_creating_witness :
  handle_output_configuration host (Instance bare) "LOF" ∅
  = (∅, Raise (AttributeError
                 "'OutputConfiguration' object has no attribute 'directory_path'")).
Proof.
  apply (proj2 (proj2 (proj2 (resolver_fails_before_creating host "LOF" ∅ _)))).
  reflexivity.
Defined.


Lemma host_creates_directories : creates_directories host.
Proof.
  split; [| split].
  - intros path fs fs' H. simpl in *. injection H as <-.
    apply bool_decide_eq_true. set_solver.
  - intros path fs fs' H. simpl in *.
    destruct (bool_decide (path ∈ fs)); [discriminate |]. injection H as <-.
    apply bool_decide_eq_true. set_solver.
  - intros path other fs fs' r H Ho. simpl in *.
    apply bool_decide_eq_true in Ho. apply bool_decide_eq_true.
    destruct (bool_decide (path ∈ fs)); injection H as <- _; set_solver.
Qed.

(** After resolving [configured], which asks for the score plots,
    [out/IForest] and [out/IForest/anomaly_score_plots] exist. *)
Lemma resolver_directories_exist_witness :
  exists fs',
    handle_output_configuration host (Instance configured) "LOF" ∅ = (fs', Ok configured)
    /\ host_exists host "out/IForest" fs' = true
    /\ host_exists host "out/IForest/anomaly_score_plots" fs' = true.
Proof.
  destruct (handle_output_configuration host (Instance configured) "LOF" ∅)
    as [fs' [c | e]] eqn:H; [| vm_compute in H; discriminate H].
  assert (Hc : c = configured) by (apply handle_inv in H; apply H).
  subst c. exists fs'. split; [reflexivity |].
  assert (Hord : ordinary (__dict__ configured))
    by (apply ordinary_keywords; vm_compute; reflexivity).
  destruct (resolver_directories_exist host (Instance configured) "LOF" ∅ fs' configured
              host_creates_directories Hord H)
    as ((d & Hd & Hex) & Hplots & _).
  split.
  - injection Hd as <-. exact Hex.
  - apply (Hplots (PyBool true)); reflexivity.
Defined.

(** [plain_instance] asks for nothing: only [out/LOF] is made. *)
Lemma resolver_creates_only_what_is_wanted_witness :
  handle_output_configuration host (Instance plain_instance) "IForest" ∅
  = ({[ "out/LOF" ]} ∪ ∅, Ok plain_instance).
Proof.
  apply (resolver_creates_only_what_is_wanted host plain_instance "IForest" "out/LOF"
           ∅ ({[ "out/LOF" ]} ∪ ∅)); reflexivity.
Defined.

End MoreInstances.
